(** * LegalQuestionGenerator: the text normaliser, the MCQ parser and the exporter

    A shallow embedding of [app.py].  Python [str] values are modelled as
    [string]; a character is a code point below 256 (Latin-1), which is the
    range on which the character classes used by the program are spelled out
    below.  Python lists are [list], the [dict] built for each question is a
    record, and the places where the program writes to the page or calls the
    completion service are modelled by an explicit trace. *)

From Stdlib Require Import List Bool Arith NArith ZArith Lia Ascii String.
From Stdlib Require Import DecimalString.
Import ListNotations.

Local Open Scope char_scope.
Local Open Scope string_scope.

(* ================================================================== *)
(** * Python string primitives used by the program                     *)
(* ================================================================== *)

Module Py.

(** [str.isspace] on one character: the code points below 256 that Python
    treats as whitespace in [str.split()] and [str.strip()]. *)
Definition isspace (c : ascii) : bool :=
  match N_of_ascii c with
  | 9 | 10 | 11 | 12 | 13 | 28 | 29 | 30 | 31 | 32 | 133 | 160 => true
  | _ => false
  end%N.

(** [\d] of the [re] module on the same range. *)
Definition isdigit (c : ascii) : bool :=
  (48 <=? N_of_ascii c)%N && (N_of_ascii c <=? 57)%N.

Definition nl : ascii := "010".

(** Truthiness of a [str]. *)
Definition truthy (s : string) : bool :=
  match s with EmptyString => false | String _ _ => true end.

(** [s.lstrip()]. *)
Fixpoint lstrip (s : string) : string :=
  match s with
  | EmptyString => EmptyString
  | String c s' => if isspace c then lstrip s' else s
  end.

(** [s.rstrip()]: a character is dropped when it is whitespace and nothing
    survives to its right. *)
Fixpoint rstrip (s : string) : string :=
  match s with
  | EmptyString => EmptyString
  | String c s' =>
      match rstrip s' with
      | EmptyString => if isspace c then EmptyString else String c EmptyString
      | r => String c r
      end
  end.

(** [s.strip()]. *)
Definition strip (s : string) : string := rstrip (lstrip s).

(** [s.split()] with no argument: the maximal runs of non-whitespace
    characters.  [words_aux s] returns the run that starts at the head of [s]
    (empty when [s] starts with whitespace) and the runs after it. *)
Definition push_word (w : string) (ws : list string) : list string :=
  match w with EmptyString => ws | String _ _ => w :: ws end.

Fixpoint words_aux (s : string) : string * list string :=
  match s with
  | EmptyString => (EmptyString, [])
  | String c s' =>
      let (w, ws) := words_aux s' in
      if isspace c then (EmptyString, push_word w ws) else (String c w, ws)
  end.

Definition split_ws (s : string) : list string :=
  let (w, ws) := words_aux s in push_word w ws.

(** [sep.join(parts)] is [String.concat sep parts]. *)
Definition join (sep : string) (parts : list string) : string :=
  String.concat sep parts.

(** [add_char c pieces] puts [c] in front of the first piece. *)
Definition add_char (c : ascii) (pieces : list string) : list string :=
  match pieces with
  | [] => [String c EmptyString]
  | l :: ls => String c l :: ls
  end.

(** [s.split('\n')]: the pieces between newline characters; never empty. *)
Fixpoint split_nl (s : string) : list string :=
  match s with
  | EmptyString => [EmptyString]
  | String c s' =>
      if Ascii.eqb c nl then EmptyString :: split_nl s'
      else add_char c (split_nl s')
  end.

(** [s.startswith(p)]. *)
Definition startswith (s p : string) : bool := String.prefix p s.

(** [s.replace(old, "")] for a non-empty [old]: every occurrence of [old],
    found from left to right without overlap, is removed. *)
Fixpoint remove_all (old : string) (s : string) (skip : nat) : string :=
  match s with
  | EmptyString => EmptyString
  | String c s' =>
      match skip with
      | S k => remove_all old s' k
      | O => if String.prefix old s
             then remove_all old s' (String.length old - 1)
             else String c (remove_all old s' 0)
      end
  end.

Definition replace_with_empty (s old : string) : string := remove_all old s 0.

(** [s[:stop]] for an integer [stop]: a negative [stop] counts from the end,
    and the bound is clamped to the string. *)
Definition slice_to (s : string) (stop : Z) : string :=
  let len := Z.of_nat (String.length s) in
  let stop' := if (stop <? 0)%Z then Z.max (stop + len) 0 else Z.min stop len in
  String.substring 0 (Z.to_nat stop') s.

(** [str(i)] for a natural number. *)
Definition str_of_nat (n : nat) : string :=
  NilZero.string_of_uint (Nat.to_uint n).

End Py.

(* ================================================================== *)
(** * Configuration and text utilities                                 *)
(* ================================================================== *)

Definition MAX_TOKENS : Z := 15000.

(** [clean_text]: [' '.join(text.split())]. *)
Definition clean_text (text : string) : string :=
  Py.join " " (Py.split_ws text).

(** [truncate_text]: [text[:max_chars]]. *)
Definition truncate_text (text : string) (max_chars : Z) : string :=
  Py.slice_to text max_chars.

(** The normaliser as the form handler applies it:
    [text = clean_text(text); text = truncate_text(text)]. *)
Definition normalize (text : string) : string :=
  truncate_text (clean_text text) MAX_TOKENS.

(* ================================================================== *)
(** * The fragment of [re] the parser uses                             *)
(* ================================================================== *)

Module Re.

(** Both patterns of the program are sequences of one-character classes,
    each taken once ([x]), at most once ([x?]) or at least once ([x+]). *)
Inductive quant := One | Opt | Plus.

Record item := Item { cls : ascii -> bool; qnt : quant }.

Definition regex := list item.

Definition chr (c : ascii) : ascii -> bool := fun x => Ascii.eqb x c.

(** [x+] followed by the continuation [k]: the longest run is tried first
    and given back one character at a time. *)
Fixpoint plus_loop (p : ascii -> bool) (k : string -> option string)
    (s : string) : option string :=
  match s with
  | EmptyString => None
  | String c s' =>
      if p c then
        match plus_loop p k s' with
        | Some r => Some r
        | None => k s'
        end
      else None
  end.

(** [match_here r s]: the backtracking matcher anchored at the head of [s];
    the result is what is left of [s] after the match.  Quantifiers are
    greedy, and the alternative is taken only when the rest fails. *)
Fixpoint match_here (r : regex) (s : string) : option string :=
  match r with
  | [] => Some s
  | it :: r' =>
      let one :=
        match s with
        | String c s' => if cls it c then match_here r' s' else None
        | EmptyString => None
        end in
      match qnt it with
      | One => one
      | Opt => match one with Some x => Some x | None => match_here r' s end
      | Plus => plus_loop (cls it) (match_here r') s
      end
  end.

(** [re.match(r, s)] as a truth value. *)
Definition matches (r : regex) (s : string) : bool :=
  match match_here r s with Some _ => true | None => false end.

(** [re.split(r, s)] for a pattern that matches no empty string: the pieces
    between successive leftmost matches.  [skip] is the number of characters
    of the current match that are still to be passed. *)
Fixpoint split_go (r : regex) (s : string) (skip : nat) : list string :=
  match s with
  | EmptyString => [EmptyString]
  | String c s' =>
      match skip with
      | S k => split_go r s' k
      | O =>
          match match_here r s with
          | Some rest =>
              EmptyString ::
              split_go r s' (String.length s - String.length rest - 1)
          | None => Py.add_char c (split_go r s' 0)
          end
      end
  end.

Definition split (r : regex) (s : string) : list string := split_go r s 0.

End Re.

(** [r'\n?\*?\*?\d+\.\*?\*?\n?'], the block delimiter. *)
Definition block_delimiter : Re.regex :=
  [ Re.Item (Re.chr Py.nl) Re.Opt;
    Re.Item (Re.chr "*") Re.Opt;
    Re.Item (Re.chr "*") Re.Opt;
    Re.Item Py.isdigit Re.Plus;
    Re.Item (Re.chr ".") Re.One;
    Re.Item (Re.chr "*") Re.Opt;
    Re.Item (Re.chr "*") Re.Opt;
    Re.Item (Re.chr Py.nl) Re.Opt ].

(** [r"^[A-D][\).]"], the option label. *)
Definition option_label : Re.regex :=
  [ Re.Item (fun c => (65 <=? N_of_ascii c)%N && (N_of_ascii c <=? 68)%N) Re.One;
    Re.Item (fun c => Ascii.eqb c ")" || Ascii.eqb c ".") Re.One ].

(* ================================================================== *)
(** * Parsing: [parse_mcqs]                                            *)
(* ================================================================== *)

(** The dictionary appended to [mcqs] for each accepted block. *)
Module MCQ.
Record t := Build
  { scenario : string;
    options : list string;
    answer : string;
    explanation : string }.
End MCQ.

(** The value of the local variable [state]. *)
Inductive pstate := Scenario | Options | Answer | Explanation.

(** The local variables of the loop over the lines of one block. *)
Record locals := Locals
  { scenario : list string;
    options : list string;
    answer : string;
    explanation : string;
    state : pstate }.

(** Their values before the first line. *)
Definition init_locals : locals :=
  {| scenario := []; options := []; answer := ""; explanation := "";
     state := Scenario |}.

Definition is_scenario (p : pstate) : bool :=
  match p with Scenario => true | _ => false end.

Definition is_options (p : pstate) : bool :=
  match p with Options => true | _ => false end.

(** The body of [for line in lines]. *)
Definition step_line (st : locals) (line : string) : locals :=
  let l := Py.strip line in
  if Re.matches option_label l then
    {| scenario := scenario st; options := options st ++ [l];
       answer := answer st; explanation := explanation st;
       state := Options |}
  else if Py.startswith l "Correct Answer:" then
    {| scenario := scenario st; options := options st;
       answer := Py.strip (Py.replace_with_empty l "Correct Answer:");
       explanation := explanation st;
       state := Answer |}
  else if Py.startswith l "Explanation:" then
    {| scenario := scenario st; options := options st;
       answer := answer st;
       explanation := Py.strip (Py.replace_with_empty l "Explanation:");
       state := Explanation |}
  else if is_scenario (state st) then
    {| scenario := scenario st ++ [l]; options := options st;
       answer := answer st; explanation := explanation st;
       state := state st |}
  else if is_options (state st) then
    {| scenario := scenario st; options := options st ++ [l];
       answer := answer st; explanation := explanation st;
       state := state st |}
  else st.

(** The loop over the lines of a block, from the initial locals. *)
Definition run_lines (lines : list string) : locals :=
  fold_left step_line lines init_locals.

Definition nonempty {A} (l : list A) : bool :=
  match l with [] => false | _ :: _ => true end.

(** The test [if options and answer] and the dictionary it guards. *)
Definition emit (st : locals) : option MCQ.t :=
  if nonempty (options st) && Py.truthy (answer st) then
    Some {| MCQ.scenario := Py.join " " (scenario st);
            MCQ.options := options st;
            MCQ.answer := answer st;
            MCQ.explanation := explanation st |}
  else None.

(** What one iteration of [for block in blocks] contributes: nothing when
    the [continue] is taken or the final test fails. *)
Definition parse_block (block : string) : option MCQ.t :=
  let block := Py.strip block in
  if negb (Py.truthy block) || (String.length block <? 20)%nat then None
  else emit (run_lines (Py.split_nl block)).

(** One iteration of [for block in blocks] on the list [mcqs]. *)
Definition block_iter (mcqs : list MCQ.t) (block : string) : list MCQ.t :=
  match parse_block block with
  | Some q => mcqs ++ [q]
  | None => mcqs
  end.

Definition parse_mcqs (raw_output : string) : list MCQ.t :=
  let blocks := Re.split block_delimiter raw_output in
  fold_left block_iter blocks [].

(* ================================================================== *)
(** * Export: [mcqs_to_md] and the two download buttons                *)
(* ================================================================== *)

(** [enumerate(xs, start)]. *)
Fixpoint enumerate {A} (start : nat) (xs : list A) : list (nat * A) :=
  match xs with
  | [] => []
  | x :: xs' => (start, x) :: enumerate (S start) xs'
  end.

(** [out.write(s)] on the [StringIO] buffer. *)
Definition write (out : string) (s : string) : string := out ++ s.

Definition nl_str : string := String Py.nl EmptyString.

(** The body of [for i, mcq in enumerate(mcqs, 1)]. *)
Definition md_iter (out : string) (im : nat * MCQ.t) : string :=
  let (i, mcq) := im in
  let out := write out ("### Q" ++ Py.str_of_nat i ++ ": "
                          ++ MCQ.scenario mcq ++ nl_str) in
  let out := fold_left (fun out opt => write out (opt ++ nl_str))
                       (MCQ.options mcq) out in
  let out := write out ("**Correct Answer:** " ++ MCQ.answer mcq ++ nl_str) in
  write out ("**Explanation:** " ++ MCQ.explanation mcq ++ nl_str ++ nl_str).

Definition mcqs_to_md (mcqs : list MCQ.t) : string :=
  fold_left md_iter (enumerate 1 mcqs) "".

(** A [st.download_button] call: label, data, file name, MIME type, key. *)
Record download := Download
  { dl_label : string; dl_data : string; dl_file_name : string;
    dl_mime : string; dl_key : string }.

(** The two buttons created after [md = mcqs_to_md(mcqs)]. *)
Definition download_buttons (mcqs : list MCQ.t) : list download :=
  let md := mcqs_to_md mcqs in
  [ Download "Download MCQs (Markdown)" md "mcqs.md" "text/markdown"
             "download_md";
    Download "Download MCQs (Text)" md "mcqs.txt" "text/plain"
             "download_txt" ].

(* ================================================================== *)
(** * Completion: [get_groq_api_key] and [call_groq_api]               *)
(* ================================================================== *)

Module Groq.

(** The part of the service's response object the program reads. *)
Record chat_message := Message { content : option string }.
Record chat_choice := Choice { message : option chat_message }.
Record response := Response { choices : list chat_choice }.

(** The arguments of [client.chat.completions.create], with the credential
    the client was built from. *)
Record request (float : Type) := Request
  { api_key : option string;
    model : string;
    user_content : string;
    temperature : float;
    max_tokens : Z;
    stream : bool }.

End Groq.

Arguments Groq.Request {float}.

Section Completion.

(** The type of [temperature]; the program only passes it on. *)
Variable float : Type.

(** Exceptions of the client library. *)
Variable exn : Type.

(** What the program does to the outside: an error box on the page, or a
    request sent to the service. *)
Inductive event :=
| StError (msg : string)
| GroqCall (req : Groq.request float).

(** A call either returns or raises. *)
Inductive outcome (A : Type) :=
| Return (a : A)
| Raise (e : exn).

Arguments Return {A}.
Arguments Raise {A}.

(** Computations that append to the trace of events. *)
Definition M (A : Type) : Type := list event -> outcome A * list event.

Definition ret {A} (a : A) : M A := fun tr => (Return a, tr).

Definition bind {A B} (m : M A) (k : A -> M B) : M B :=
  fun tr =>
    match m tr with
    | (Return a, tr') => k a tr'
    | (Raise e, tr') => (Raise e, tr')
    end.

Definition st_error (msg : string) : M unit :=
  fun tr => (Return tt, (tr ++ [StError msg])%list).

(** [st.secrets]: when the application has no secrets file, any access to
    it, the membership test included, raises; when it has one, it is a
    mapping from names to values. *)
Inductive secrets_store :=
| NoSecretsFile (e : exn)
| SecretsFile (entries : string -> option string).

(** [st.secrets] and the process environment. *)
Variable secrets : secrets_store.
Variable environ : string -> option string.

(** A value or an exception, as a computation that leaves the trace as it
    is. *)
Definition lift {A} (o : outcome A) : M A := fun tr => (o, tr).

(** The service behind [Groq(api_key=...).chat.completions.create]: it
    returns a response object (or [None]) or raises. *)
Variable service : Groq.request float -> outcome (option Groq.response).

Definition create (req : Groq.request float) : M (option Groq.response) :=
  fun tr => (service req, (tr ++ [GroqCall req])%list).

(** [st.secrets["GROQ_API_KEY"] if "GROQ_API_KEY" in st.secrets
     else os.getenv("GROQ_API_KEY")]. *)
Definition get_groq_api_key : outcome (option string) :=
  match secrets with
  | NoSecretsFile e => Raise e
  | SecretsFile entries =>
      match entries "GROQ_API_KEY" with
      | Some v => Return (Some v)
      | None => Return (environ "GROQ_API_KEY")
      end
  end.

(** Truthiness of a value that is [None] or a [str]. *)
Definition truthy_opt (v : option string) : bool :=
  match v with Some s => Py.truthy s | None => false end.

(** The [content] read from the response when every link of
    [response.choices[0].message.content] is truthy. *)
Definition first_content (response : option Groq.response) : option string :=
  match response with
  | Some r =>
      match Groq.choices r with
      | c :: _ =>
          match Groq.message c with
          | Some m =>
              if truthy_opt (Groq.content m)
              then option_map Py.strip (Groq.content m)
              else None
          | None => None
          end
      | [] => None
      end
  | None => None
  end.

Definition call_groq_api (prompt model : string) (temperature : float)
  : M (option string) :=
  bind (lift get_groq_api_key) (fun api_key =>
  if negb (truthy_opt api_key) then
    bind (st_error
      "Please set your GROQ_API_KEY in Streamlit secrets or environment variables.")
      (fun _ => ret None)
  else
    bind (create (Groq.Request api_key model prompt temperature 2048 false))
         (fun response => ret (first_content response))).

End Completion.

Arguments Return {exn A}.
Arguments Raise {exn A}.
Arguments StError {float}.
Arguments GroqCall {float}.
Arguments NoSecretsFile {exn}.
Arguments SecretsFile {exn}.

Definition example_raw : string :=
"1. A tenant is evicted without notice.
A) Valid
B) Invalid
C) Unclear
D) None
Correct Answer: B
Explanation: Due process requires notice.".

(** The export as the specification words it: each record is a heading line
    with its index and scenario, then its option lines, an answer line, an
    explanation line and a blank line. *)
Definition line (s : string) : string := s ++ nl_str.

Definition render_record (i : nat) (q : MCQ.t) : string :=
  line ("### Q" ++ Py.str_of_nat i ++ ": " ++ MCQ.scenario q)
  ++ String.concat "" (map line (MCQ.options q))
  ++ line ("**Correct Answer:** " ++ MCQ.answer q)
  ++ line ("**Explanation:** " ++ MCQ.explanation q)
  ++ line "".

Definition render_all (mcqs : list MCQ.t) : string :=
  String.concat ""
    (map (fun iq => render_record (fst iq) (snd iq)) (enumerate 1 mcqs)).

(* ================================================================== *)
(** * Predicates on texts                                              *)
(* ================================================================== *)

(** The first [n] characters. *)
Definition take (n : nat) (s : string) : string := String.substring 0 n s.

(** Each later word with the space that precedes it. *)
Fixpoint spaced (ws : list string) : string :=
  match ws with
  | [] => ""
  | w :: ws' => String " " (w ++ spaced ws')
  end.

Fixpoint nospace (s : string) : bool :=
  match s with
  | EmptyString => true
  | String c s' => negb (Py.isspace c) && nospace s'
  end.

(** Only whitespace. *)
Fixpoint all_space (s : string) : bool :=
  match s with
  | EmptyString => true
  | String c s' => Py.isspace c && all_space s'
  end.

Definition starts_nonspace (s : string) : bool :=
  match s with
  | EmptyString => false
  | String c _ => negb (Py.isspace c)
  end.

Definition is_empty (s : string) : bool :=
  match s with EmptyString => true | String _ _ => false end.

(** Every whitespace character is a space that is followed by a
    non-whitespace character. *)
Fixpoint tight (s : string) : bool :=
  match s with
  | EmptyString => true
  | String c s' =>
      (if Py.isspace c then Ascii.eqb c " " && starts_nonspace s' else true)
      && tight s'
  end.

(** The same, except that the text may end with one space. *)
Fixpoint ptight (s : string) : bool :=
  match s with
  | EmptyString => true
  | String c s' =>
      (if Py.isspace c
       then Ascii.eqb c " " && (is_empty s' || starts_nonspace s')
       else true)
      && ptight s'
  end.

(** The last character is a space. *)
Fixpoint ends_with_space (s : string) : bool :=
  match s with
  | EmptyString => false
  | String c EmptyString => Ascii.eqb c " "
  | String _ s' => ends_with_space s'
  end.

(** Normal forms of [clean_text]. *)
Definition clean (s : string) : bool :=
  tight s && (is_empty s || starts_nonspace s).

Definition good_word (w : string) : bool := negb (is_empty w) && nospace w.

Fixpoint no_newline (s : string) : bool :=
  match s with
  | EmptyString => true
  | String c s' => negb (Ascii.eqb c Py.nl) && no_newline s'
  end.

(** [n] copies of [s]. *)
Fixpoint replicate (n : nat) (s : string) : string :=
  match n with
  | O => ""
  | S n' => s ++ replicate n' s
  end.

(** 3000 four-letter words and one more letter, separated by single spaces:
    15001 characters, already clean, with a space at position 15000. *)
Definition long_text : string := replicate 3000 "abcd " ++ "e".

(* ================================================================== *)
(** * Vocabulary for the statements about the parser                   *)
(* ================================================================== *)

(** The option-label pattern accepts exactly the strings that start with a
    letter from A to D followed by a closing parenthesis or a period. *)
Definition labelled (l : string) : Prop :=
  exists a b rest,
    l = String a (String b rest) /\
    In a ["A"; "B"; "C"; "D"]%char /\ In b [")"; "."]%char.

(** The lines the state machine reads for a block. *)
Definition block_lines (block : string) : list string :=
  Py.split_nl (Py.strip block).

(** The dictionary made of the locals at the end of the line loop. *)
Definition record_of (st : locals) : MCQ.t :=
  MCQ.Build (Py.join " " (scenario st)) (options st) (answer st)
            (explanation st).

(** The block passes the length filter, and its line loop ends with a
    non-empty options list and a non-empty answer. *)
Definition emitsb (block : string) : bool :=
  (20 <=? String.length (Py.strip block))%nat
  && nonempty (options (run_lines (block_lines block)))
  && Py.truthy (answer (run_lines (block_lines block))).

Definition option_list {A} (o : option A) : list A :=
  match o with Some a => [a] | None => [] end.

(** Every text of the record stays on one line. *)
Definition one_line (q : MCQ.t) : bool :=
  no_newline (MCQ.scenario q) && forallb no_newline (MCQ.options q)
  && no_newline (MCQ.answer q) && no_newline (MCQ.explanation q).

Definition one_line_locals (st : locals) : bool :=
  forallb no_newline (scenario st) && forallb no_newline (options st)
  && no_newline (answer st) && no_newline (explanation st).

Definition citation_raw : string :=
"1. Under Article 21. of the Constitution a tenant is evicted.
A) Valid
B) Invalid
C) Unclear
D) None
Correct Answer: B
Explanation: Due process requires notice.".

(* ================================================================== *)
(** * The delimiter, read deterministically                            *)
(* ================================================================== *)

(** One optional character. *)
Definition skip1 (c0 : ascii) (s : string) : string :=
  match s with
  | String c s' => if Ascii.eqb c c0 then s' else s
  | EmptyString => EmptyString
  end.

Definition starts_with_period (s : string) : bool :=
  match s with
  | String c _ => Ascii.eqb c "."
  | EmptyString => false
  end.

(** What follows a non-empty run of digits and the period after it. *)
Fixpoint digit_run (s : string) : option string :=
  match s with
  | EmptyString => None
  | String c s' =>
      if Py.isdigit c then
        match digit_run s' with
        | Some r => Some r
        | None => if starts_with_period s' then Some (skip1 "." s') else None
        end
      else None
  end.

(** A digit immediately followed by a period, somewhere in the text. *)
Fixpoint has_digit_period (s : string) : bool :=
  match s with
  | EmptyString => false
  | String c s' =>
      (Py.isdigit c && starts_with_period s') || has_digit_period s'
  end.

Definition after_digits : Re.regex :=
  [ Re.Item (Re.chr ".") Re.One;
    Re.Item (Re.chr "*") Re.Opt;
    Re.Item (Re.chr "*") Re.Opt;
    Re.Item (Re.chr Py.nl) Re.Opt ].

Definition from_digits : Re.regex :=
  Re.Item Py.isdigit Re.Plus :: after_digits.

(** The emphasis and newline that may follow the period. *)
Definition closing (s : string) : string :=
  skip1 Py.nl (skip1 "*" (skip1 "*" s)).

(** The emphasis and newline that may precede the digits. *)
Definition opening (s : string) : string :=
  skip1 "*" (skip1 "*" (skip1 Py.nl s)).

(** The text after a piece: the end of the output, or a newline. *)
Definition tail_ok (t : string) : bool :=
  match t with
  | EmptyString => true
  | String c _ => Ascii.eqb c Py.nl
  end.

Fixpoint all_digits (s : string) : bool :=
  match s with
  | EmptyString => true
  | String c s' => Py.isdigit c && all_digits s'
  end.

Definition prepend (x : string) (pieces : list string) : list string :=
  match pieces with
  | [] => [x]
  | p :: ps => (x ++ p) :: ps
  end.

(* ================================================================== *)
(** * Numbered blocks                                                  *)
(* ================================================================== *)

(** A numbered block as the prompt asks for it: the number, the scenario,
    the texts of the four options, the answer and the explanation, and the
    blank space (blank lines, for instance) that may follow the block. *)
Record block := Block
  { number : string;
    scen : string;
    optA : string; optB : string; optC : string; optD : string;
    ans : string;
    expl : string;
    gap : string }.

(** The lines of the block after its marker. *)
Definition body_lines (b : block) : list string :=
  [ " " ++ scen b;
    "A)" ++ optA b; "B)" ++ optB b; "C)" ++ optC b; "D)" ++ optD b;
    "Correct Answer:" ++ ans b;
    "Explanation:" ++ expl b ++ gap b ].

Definition body (b : block) : string := String.concat nl_str (body_lines b).

Definition render_block (b : block) : string := number b ++ "." ++ body b.

(** The raw output: the blocks, one per group of lines. *)
Definition render_blocks (bs : list block) : string :=
  String.concat nl_str (map render_block bs).

(** A text that stays on its line and holds no digit followed by a period. *)
Definition field_ok (s : string) : bool :=
  no_newline s && negb (has_digit_period s).

(** A line that, once trimmed, is neither an option line nor an answer or
    explanation line. *)
Definition plain_line (l : string) : bool :=
  negb (Re.matches option_label (Py.strip l))
  && negb (Py.startswith (Py.strip l) "Correct Answer:")
  && negb (Py.startswith (Py.strip l) "Explanation:").

(** The values the parser reads off an answer and an explanation line. *)
Definition answer_value (line : string) : string :=
  Py.strip (Py.replace_with_empty (Py.strip line) "Correct Answer:").

Definition explanation_value (line : string) : string :=
  Py.strip (Py.replace_with_empty (Py.strip line) "Explanation:").

Definition well_formed (b : block) : bool :=
  negb (is_empty (number b)) && all_digits (number b)
  && field_ok (scen b)
  && field_ok (optA b) && field_ok (optB b)
  && field_ok (optC b) && field_ok (optD b)
  && field_ok (ans b) && field_ok (expl b)
  && all_space (gap b)
  && plain_line (scen b)
  && Py.truthy (answer_value ("Correct Answer:" ++ ans b)).

(** The record expected for a block. *)
Definition expected (b : block) : MCQ.t :=
  {| MCQ.scenario := Py.strip (scen b);
     MCQ.options := [ Py.strip ("A)" ++ optA b); Py.strip ("B)" ++ optB b);
                      Py.strip ("C)" ++ optC b); Py.strip ("D)" ++ optD b) ];
     MCQ.answer := answer_value ("Correct Answer:" ++ ans b);
     MCQ.explanation := explanation_value ("Explanation:" ++ expl b) |}.

(** What follows a block in the raw output. *)
Fixpoint following (bs : list block) : string :=
  match bs with
  | [] => ""
  | b :: bs' => String Py.nl (render_block b ++ following bs')
  end.

Record well_formed_facts (b : block) : Prop := Facts
  { wf_number : number b <> "";
    wf_digits : all_digits (number b) = true;
    wf_scen : field_ok (scen b) = true;
    wf_optA : field_ok (optA b) = true;
    wf_optB : field_ok (optB b) = true;
    wf_optC : field_ok (optC b) = true;
    wf_optD : field_ok (optD b) = true;
    wf_ans : field_ok (ans b) = true;
    wf_expl : field_ok (expl b) = true;
    wf_gap : all_space (gap b) = true;
    wf_plain : plain_line (scen b) = true;
    wf_answer : answer_value ("Correct Answer:" ++ ans b) <> "" }.

(** The lines from the first option line on, once the block is trimmed. *)
Definition marked_lines (b : block) : list string :=
  [ "A)" ++ optA b; "B)" ++ optB b; "C)" ++ optC b; "D)" ++ optD b;
    "Correct Answer:" ++ ans b;
    "Explanation:" ++ Py.rstrip (expl b) ].

(** The lines of the trimmed block: the scenario line disappears with the
    leading whitespace when it is blank. *)
Definition trimmed_lines (b : block) : list string :=
  if all_space (scen b) then marked_lines b
  else Py.lstrip (scen b) :: marked_lines b.

(** A block in the shape C1 asks for whose scenario line opens with
    the initials of a party. *)
Definition gopalan_block : block :=
  {| number := "1";
     scen := "A. K. Gopalan is detained without trial.";
     optA := " Valid"; optB := " Invalid"; optC := " Unclear";
     optD := " None";
     ans := " B";
     expl := " Due process requires notice.";
     gap := "" |}.

Definition tenant_block : block :=
  {| number := "1";
     scen := "A tenant is evicted without notice.";
     optA := " Valid"; optB := " Invalid"; optC := " Unclear";
     optD := " None";
     ans := " B";
     expl := " Due process requires notice. ";
     gap := String Py.nl "" |}.

Definition arrest_block : block :=
  {| number := "12";
     scen := "An arrest is made without a memo of arrest. ";
     optA := " Lawful"; optB := " Unlawful"; optC := ""; optD := " None";
     ans := "D ";
     expl := "";
     gap := "" |}.

(* ================================================================== *)
(** * Extraction: [extract_text_from_pdf]                              *)
(* ================================================================== *)

(** What a PDF library does with the uploaded file: opening it raises, or
    it yields pages, and reading the text of a page raises or returns a text
    or [None]. *)
Inductive page_read (exn : Type) :=
| PageText (t : option string)
| PageRaises (e : exn).

Inductive document (exn : Type) :=
| OpenRaises (e : exn)
| Pages (ps : list (page_read exn)).

Arguments PageText {exn}.
Arguments PageRaises {exn}.
Arguments OpenRaises {exn}.
Arguments Pages {exn}.

(** The uploaded file, as [pdfplumber] and as [PyPDF2] read it from its
    start. *)
Record pdf (exn : Type) := Pdf
  { plumber : document exn;
    pypdf2 : document exn }.

Arguments Pdf {exn}.
Arguments plumber {exn}.
Arguments pypdf2 {exn}.

(** [x or ""] for a value that is [None] or a [str]. *)
Definition or_empty (t : option string) : string :=
  match t with Some s => s | None => "" end.

(** [for page in pages: text += page.extract_text() or ""], from the given
    [text]: the text reached, and the exception that stopped the loop if one
    did. *)
Fixpoint read_pages {exn : Type} (text : string) (ps : list (page_read exn))
  : string * option exn :=
  match ps with
  | [] => (text, None)
  | PageText t :: ps' => read_pages (text ++ or_empty t) ps'
  | PageRaises e :: _ => (text, Some e)
  end.

(** One library on the whole file, from the given [text]. *)
Definition read_document {exn : Type} (text : string) (d : document exn)
  : string * option exn :=
  match d with
  | OpenRaises e => (text, Some e)
  | Pages ps => read_pages text ps
  end.

(** The [try] block runs [pdfplumber]; on any exception the [except] block
    rewinds the file and runs [PyPDF2], still adding to the same [text], and
    an exception there leaves the function. *)
Definition extract_text_from_pdf {exn : Type} (pdf_file : pdf exn)
  : outcome exn string :=
  match read_document "" (plumber pdf_file) with
  | (text, None) => Return text
  | (text, Some _) =>
      match read_document text (pypdf2 pdf_file) with
      | (text', None) => Return text'
      | (_, Some e) => Raise e
      end
  end.

(* ================================================================== *)
(** * Prompt: [build_prompt]                                           *)
(* ================================================================== *)

(** [str(i)] for an integer. *)
Definition str_of_int (i : Z) : string :=
  NilZero.string_of_int (Z.to_int i).

(** The template is [instructions], then the text, then the line that asks
    for the questions.  [instructions] stands for the fixed text of the
    template from its first character to [Text: ] included; it holds dashes
    outside the range of characters modelled here and is taken as given. *)
Definition build_prompt (instructions : string) (extracted_text : string)
    (n_questions : Z) : string :=
  instructions ++ extracted_text ++ nl_str
  ++ "Generate " ++ str_of_int n_questions ++ " MCQs from the above text."
  ++ nl_str.

(* ================================================================== *)
(** * The form handler                                                 *)
(* ================================================================== *)

Section Handler.

Variable float : Type.
Variable exn : Type.

(** [str(e)] for an exception. *)
Variable str_of_exn : exn -> string.

Variable secrets : secrets_store exn.
Variable environ : string -> option string.
Variable service : Groq.request float -> outcome exn (option Groq.response).
Variable instructions : string.

(** The default [temperature=0.7] of [call_groq_api]. *)
Variable default_temperature : float.

Definition default_model : string :=
  "meta-llama/llama-4-scout-17b-16e-instruct".

(** What a run of the handler puts on the page or sends out, in order. *)
Inductive page_event :=
| Spinner (msg : string)
| Success (msg : string)
| Error (msg : string)
| Warning (msg : string)
| Info (msg : string)
| Code (body : string)
| Markdown (body : string)
| Expander (label : string) (body : list string)
| DownloadButton (d : download)
| Request (req : Groq.request float).

(** The events of [call_groq_api] among those of the page. *)
Definition page_of (e : event float) : page_event :=
  match e with
  | StError msg => Error msg
  | GroqCall req => Request req
  end.

(** [call_groq_api(prompt)] with its default arguments. *)
Definition call_default (prompt : string)
  : outcome exn (option string) * list page_event :=
  let (r, evs) :=
    call_groq_api float exn secrets environ service prompt default_model
                  default_temperature [] in
  (r, map page_of evs).

(** The [try]/[except] around the call: an exception becomes an error box
    and [output = None]. *)
Definition guarded_call (prompt : string)
  : option string * list page_event :=
  match call_default prompt with
  | (Return output, evs) => (output, evs)
  | (Raise e, evs) =>
      (None, (evs ++ [Error ("Groq API error: " ++ str_of_exn e)])%list)
  end.

(** The body of [with st.expander(f"Question {i}")]. *)
Definition expander_of (im : nat * MCQ.t) : page_event :=
  let (i, mcq) := im in
  Expander ("Question " ++ Py.str_of_nat i)
    [ "**Scenario:** " ++ MCQ.scenario mcq;
      String.concat nl_str (MCQ.options mcq);
      "**Correct Answer:** " ++ MCQ.answer mcq;
      "**Explanation:** " ++ MCQ.explanation mcq ].

(** The branch [if output:]. *)
Definition show_output (output : string) : list page_event :=
  let mcqs := parse_mcqs output in
  (Success "MCQs generated!" ::
   if nonempty mcqs then
     (Markdown ("### " ++ Py.str_of_nat (List.length mcqs) ++ " MCQs Generated:")
      :: map expander_of (enumerate 1 mcqs)
      ++ map DownloadButton (download_buttons mcqs))
   else
     [ Warning "Could not parse MCQs. Showing raw output:"; Code output ])%list.

(** The branch taken when enough text was extracted. *)
Definition generate (text : string) (n_questions : Z) : list page_event :=
  let prompt := build_prompt instructions text n_questions in
  let (output, evs) := guarded_call prompt in
  ([ Success "PDF text extracted successfully!";
     Spinner "Generating MCQs using Groq API..." ]
   ++ evs
   ++ (if truthy_opt output then show_output (or_empty output)
       else [ Error "Failed to generate MCQs. Please try again." ]))%list.

(** The script from [if pdf_file and submitted] on: the uploaded file (or
    [None]), the slider value and the state of the submit button come from
    the form. *)
Definition on_submit (pdf_file : option (pdf exn)) (n_questions : Z)
    (submitted : bool) : outcome exn unit * list page_event :=
  match pdf_file with
  | Some f =>
      if submitted then
        match extract_text_from_pdf f with
        | Raise e => (Raise e, [Spinner "Extracting text from PDF..."])
        | Return text =>
            let text := truncate_text (clean_text text) MAX_TOKENS in
            (Return tt,
             (Spinner "Extracting text from PDF..." ::
              if negb (Py.truthy text) || (String.length text <? 100)%nat
              then [ Error "Failed to extract sufficient text from the PDF." ]
              else generate text n_questions)%list)
        end
      else
        (Return tt,
         [ Info "Upload a PDF and select the number of questions to begin." ])
  | None =>
      (Return tt,
       [ Info "Upload a PDF and select the number of questions to begin." ])
  end.

End Handler.

Arguments Spinner {float}.
Arguments Success {float}.
Arguments Error {float}.
Arguments Warning {float}.
Arguments Info {float}.
Arguments Code {float}.
Arguments Markdown {float}.
Arguments Expander {float}.
Arguments DownloadButton {float}.
Arguments Request {float}.

(* ================================================================== *)
(** * Vocabulary for the further properties                            *)
(* ================================================================== *)

(** The locals with the scenario or the options replaced. *)
Definition with_scenario (st : locals) (sc : list string) : locals :=
  Locals sc (options st) (answer st) (explanation st) (state st).

Definition with_options (st : locals) (os : list string) : locals :=
  Locals (scenario st) os (answer st) (explanation st) (state st).

(** The first character is neither an asterisk nor a newline. *)
Definition plain_start (s : string) : bool :=
  match s with
  | EmptyString => true
  | String c _ => negb (Ascii.eqb c "*") && negb (Ascii.eqb c Py.nl)
  end.

(** The exception a library meets on a document, if it meets one. *)
Definition failure {exn : Type} (d : document exn) : option exn :=
  snd (read_document "" d).

(** The requests among the events of a run. *)
Fixpoint requests {float : Type} (evs : list (page_event float))
  : list (Groq.request float) :=
  match evs with
  | [] => []
  | Request req :: evs' => req :: requests evs'
  | _ :: evs' => requests evs'
  end.

(** The first option, when there is one, carries a label; and the state is
    [Options] only once there is an option. *)
Definition first_labelled (st : locals) : Prop :=
  match options st with
  | [] => state st <> Options
  | o :: _ => labelled o
  end.

(** The texts the line loop has set are trimmed. *)
Definition trimmed_locals (st : locals) : Prop :=
  Forall (fun o => Py.strip o = o) (options st) /\
  Py.strip (answer st) = answer st /\
  Py.strip (explanation st) = explanation st.

(** A one-page file with enough text, a response with one choice, and the
    request a run on them sends. *)
Definition demo_text : string := replicate 30 "word ".

Definition demo_pdf : pdf unit :=
  Pdf (Pages [PageText (Some demo_text); PageText None]) (OpenRaises tt).

Definition demo_response (content : string) : option Groq.response :=
  Some (Groq.Response [Groq.Choice (Some (Groq.Message (Some content)))]).

Definition demo_request : Groq.request nat :=
  Groq.Request (Some "k") default_model
    (build_prompt "Instructions. Text: " (normalize demo_text) 5) 7 2048 false.

(* ================================================================== *)
(** * Basic facts about strings                                        *)
(* ================================================================== *)

Lemma append_nil_r (s : string) : s ++ "" = s.
Proof. induction s as [|c s IH]; simpl; [reflexivity | now rewrite IH]. Qed.

Lemma append_assoc (a b c : string) : (a ++ b) ++ c = a ++ (b ++ c).
Proof. induction a as [|x a IH]; simpl; [reflexivity | now rewrite IH]. Qed.

(** Right-nested appends with the literal prefixes pushed through. *)
Ltac norm_append :=
  repeat first [rewrite append_assoc | progress cbn [append]].

Lemma length_append (a b : string) :
  String.length (a ++ b) = String.length a + String.length b.
Proof. induction a as [|x a IH]; simpl; [reflexivity | now rewrite IH]. Qed.

Lemma substring_0_length (n : nat) (s : string) :
  String.length (String.substring 0 n s) = Nat.min n (String.length s).
Proof.
  revert s; induction n as [|n IH]; intros [|c s]; simpl; try reflexivity.
  now rewrite IH.
Qed.

Lemma substring_0_all (n : nat) (s : string) :
  String.length s <= n -> String.substring 0 n s = s.
Proof.
  revert s; induction n as [|n IH]; intros [|c s]; simpl; intros H;
    try reflexivity; try lia.
  f_equal. apply IH. lia.
Qed.

(* ================================================================== *)
(** * Truncation                                                       *)
(* ================================================================== *)

Lemma truncate_text_within_budget_aux (text : string) (max_chars : Z) :
  ((0 <= max_chars)%Z ->
   (Z.of_nat (String.length (truncate_text text max_chars)) <= max_chars)%Z) /\
  ((Z.of_nat (String.length text) <= max_chars)%Z ->
   truncate_text text max_chars = text).
Proof.
  unfold truncate_text, Py.slice_to. split.
  - intros Hpos. destruct (Z.ltb_spec max_chars 0) as [Hneg|_]; [lia|].
    rewrite substring_0_length. lia.
  - intros Hfit. destruct (Z.ltb_spec max_chars 0) as [Hneg|_]; [lia|].
    apply substring_0_all. lia.
Qed.

(** C7.  With a non-negative character budget, [truncate_text] never returns
    more characters than the budget, and it returns a text that already fits
    in the budget unchanged. *)
Theorem truncate_text_within_budget (text : string) (max_chars : Z) :
  (0 <= max_chars)%Z ->
  (Z.of_nat (String.length (truncate_text text max_chars)) <= max_chars)%Z /\
  ((Z.of_nat (String.length text) <= max_chars)%Z ->
   truncate_text text max_chars = text).
Proof.
  intros Hpos. split.
  - now apply truncate_text_within_budget_aux.
  - apply truncate_text_within_budget_aux.
Qed.

Lemma truncate_text_within_budget_witness :
  (0 <= 5)%Z /\
  (Z.of_nat (String.length (truncate_text "hello world" 5)) <= 5)%Z /\
  truncate_text "hello" 5 = "hello".
Proof.
  split; [lia|]. split.
  - apply (truncate_text_within_budget "hello world" 5). lia.
  - apply (truncate_text_within_budget "hello" 5); simpl; lia.
Defined.

(* ================================================================== *)
(** * The text normaliser                                              *)
(* ================================================================== *)

Lemma join_spaced (a : string) (ws : list string) :
  Py.join " " (a :: ws) = a ++ spaced ws.
Proof.
  revert a; induction ws as [|w ws IH]; intros a.
  - simpl. now rewrite append_nil_r.
  - change (Py.join " " (a :: w :: ws))
      with (a ++ " " ++ Py.join " " (w :: ws)).
    now rewrite IH.
Qed.

Lemma clean_text_words (s : string) :
  clean_text s =
  match Py.words_aux s with
  | (EmptyString, []) => ""
  | (EmptyString, w :: ws) => w ++ spaced ws
  | (a, ws) => a ++ spaced ws
  end.
Proof.
  unfold clean_text, Py.split_ws.
  destruct (Py.words_aux s) as [[|c a] [|w ws]]; cbn [Py.push_word];
    try (now rewrite join_spaced); reflexivity.
Qed.

(** ** The output of [clean_text] is a normal form *)

Lemma words_aux_good (s : string) :
  nospace (fst (Py.words_aux s)) = true /\
  forallb good_word (snd (Py.words_aux s)) = true.
Proof.
  induction s as [|c s [IHa IHw]]; [split; reflexivity|].
  cbn [Py.words_aux]. destruct (Py.words_aux s) as [a ws]. simpl in IHa, IHw.
  destruct (Py.isspace c) eqn:Ec; cbn [fst snd].
  - split; [reflexivity|].
    destruct a as [|x a]; cbn [Py.push_word]; [exact IHw|].
    cbn [forallb]. rewrite IHw. unfold good_word. now rewrite IHa.
  - split; [|exact IHw]. cbn [nospace]. now rewrite Ec, IHa.
Qed.

Lemma tight_nospace_app (a r : string) :
  nospace a = true -> tight (a ++ r) = tight r.
Proof.
  induction a as [|c a IH]; [reflexivity|]. cbn [nospace append tight].
  intros H. apply andb_prop in H as [Hc Ha].
  apply negb_true_iff in Hc. rewrite Hc. now apply IH.
Qed.

Lemma starts_nonspace_good (w r : string) :
  good_word w = true -> starts_nonspace (w ++ r) = true.
Proof.
  destruct w as [|c w]; [discriminate|]. unfold good_word. cbn.
  intros H. now apply andb_prop in H as [H _].
Qed.

Lemma tight_spaced (ws : list string) :
  forallb good_word ws = true -> tight (spaced ws) = true.
Proof.
  induction ws as [|w ws IH]; [reflexivity|]. cbn [forallb spaced tight].
  intros H. apply andb_prop in H as [Hw Hws].
  rewrite (starts_nonspace_good _ _ Hw). cbn.
  rewrite tight_nospace_app; [now apply IH|].
  unfold good_word in Hw. now apply andb_prop in Hw as [_ Hw].
Qed.

Lemma clean_text_clean (s : string) : clean (clean_text s) = true.
Proof.
  rewrite clean_text_words.
  destruct (words_aux_good s) as [Ha Hw].
  destruct (Py.words_aux s) as [a ws]. cbn [fst snd] in Ha, Hw.
  unfold clean.
  destruct a as [|c a].
  - destruct ws as [|w ws]; [reflexivity|].
    cbn [forallb] in Hw. apply andb_prop in Hw as [Hw Hws].
    rewrite (starts_nonspace_good _ _ Hw), orb_true_r, andb_true_r.
    rewrite tight_nospace_app; [now apply tight_spaced|].
    unfold good_word in Hw. now apply andb_prop in Hw as [_ Hw].
  - rewrite tight_nospace_app by exact Ha. rewrite tight_spaced by exact Hw.
    cbn [nospace] in Ha. apply andb_prop in Ha as [Hc _].
    cbn. now rewrite Hc.
Qed.

(** ** [clean_text] leaves a normal form unchanged *)

Lemma words_aux_tight (s : string) :
  tight s = true ->
  fst (Py.words_aux s) ++ spaced (snd (Py.words_aux s)) = s.
Proof.
  induction s as [|c s IH]; [reflexivity|].
  cbn [tight Py.words_aux]. intros H. apply andb_prop in H as [Hc Hs].
  specialize (IH Hs). destruct (Py.words_aux s) as [a ws] eqn:E.
  cbn [fst snd] in IH.
  destruct (Py.isspace c) eqn:Ec; cbn [fst snd append].
  - apply andb_prop in Hc as [Hc Hn]. apply Ascii.eqb_eq in Hc. subst c.
    destruct s as [|x s]; [discriminate|]. cbn [starts_nonspace] in Hn.
    cbn [Py.words_aux] in E. destruct (Py.words_aux s) as [a' ws'].
    apply negb_true_iff in Hn. rewrite Hn in E. injection E as <- <-.
    cbn [Py.push_word spaced]. now rewrite IH.
  - now rewrite IH.
Qed.

Lemma clean_text_fixed (s : string) : clean s = true -> clean_text s = s.
Proof.
  unfold clean. intros H. apply andb_prop in H as [Ht Hs].
  pose proof (words_aux_tight s Ht) as Hw.
  rewrite clean_text_words.
  destruct s as [|c s]; [reflexivity|].
  cbn [is_empty starts_nonspace orb] in Hs.
  cbn [Py.words_aux] in *. destruct (Py.words_aux s) as [a ws].
  apply negb_true_iff in Hs. rewrite Hs in *. exact Hw.
Qed.

(** ** Prefixes of normal forms *)

Lemma take_tight (n : nat) (s : string) :
  tight s = true -> ptight (take n s) = true.
Proof.
  unfold take. revert s; induction n as [|n IH]; intros [|c s];
    try reflexivity.
  cbn [tight String.substring ptight]. intros H.
  apply andb_prop in H as [Hc Hs]. rewrite (IH s Hs), andb_true_r.
  destruct (Py.isspace c); [|reflexivity].
  apply andb_prop in Hc as [Hc Hn]. rewrite Hc.
  destruct n; [destruct s; reflexivity|].
  destruct s as [|x s]; [discriminate|]. cbn in *. now rewrite Hn.
Qed.

Lemma ptight_tight (s : string) :
  ptight s = true -> ends_with_space s = false -> tight s = true.
Proof.
  induction s as [|c s IH]; [reflexivity|].
  cbn [ptight tight]. intros H He. apply andb_prop in H as [Hc Hs].
  assert (Hs' : tight s = true).
  { apply IH; [exact Hs|]. destruct s; [reflexivity | exact He]. }
  rewrite Hs', andb_true_r.
  destruct (Py.isspace c); [|reflexivity].
  apply andb_prop in Hc as [Hc Hn]. rewrite Hc.
  destruct s as [|x s]; [cbn in He; congruence | exact Hn].
Qed.

Lemma tight_no_trailing_space (s : string) :
  tight s = true -> ends_with_space s = false.
Proof.
  induction s as [|c s IH]; [reflexivity|].
  cbn [tight]. intros H. apply andb_prop in H as [Hc Hs].
  destruct s as [|x s]; [|now apply IH].
  cbn. destruct (Ascii.eqb_spec c " ") as [->|]; [|reflexivity].
  cbn in Hc. discriminate.
Qed.

Lemma take_starts (n : nat) (s : string) :
  is_empty s || starts_nonspace s = true ->
  is_empty (take n s) || starts_nonspace (take n s) = true.
Proof. destruct n, s; intros H; try reflexivity; exact H. Qed.

Lemma take_take (n : nat) (s : string) : take n (take n s) = take n s.
Proof.
  unfold take. apply substring_0_all. rewrite substring_0_length. lia.
Qed.

Lemma take_min (n : nat) (s : string) :
  take (Nat.min n (String.length s)) s = take n s.
Proof.
  unfold take. revert s; induction n as [|n IH]; intros [|c s];
    try reflexivity.
  cbn [String.length Nat.min String.substring]. now rewrite IH.
Qed.

(** ** Lengths *)

Lemma words_aux_length (s : string) :
  String.length (fst (Py.words_aux s)) +
  String.length (spaced (snd (Py.words_aux s))) <= String.length s.
Proof.
  induction s as [|c s IH]; [simpl; lia|].
  cbn [Py.words_aux]. destruct (Py.words_aux s) as [a ws].
  cbn [fst snd] in IH.
  destruct (Py.isspace c); cbn [fst snd String.length].
  - destruct a as [|x a]; cbn [Py.push_word spaced String.length] in *;
      [lia|]. rewrite length_append. cbn [String.length]. lia.
  - lia.
Qed.

Lemma clean_text_length (s : string) :
  String.length (clean_text s) <= String.length s.
Proof.
  rewrite clean_text_words. pose proof (words_aux_length s) as H.
  destruct (Py.words_aux s) as [[|c a] [|w ws]];
    cbn [fst snd spaced String.length] in *;
    rewrite ?length_append in *; cbn [String.length] in *;
    rewrite ?length_append in *; lia.
Qed.

(** With a non-negative budget the slice is a prefix. *)
Lemma truncate_text_take (text : string) (max_chars : Z) :
  (0 <= max_chars)%Z ->
  truncate_text text max_chars = take (Z.to_nat max_chars) text.
Proof.
  intros H. unfold truncate_text, Py.slice_to.
  destruct (Z.ltb_spec max_chars 0); [lia|].
  rewrite <- (take_min (Z.to_nat max_chars)). unfold take. f_equal. lia.
Qed.

(** The normaliser for an arbitrary budget [n]: a second pass changes
    nothing exactly when the first result does not end with a space. *)
Lemma take_clean_fixed_iff (n : nat) (s : string) :
  take n (clean_text (take n (clean_text s))) = take n (clean_text s) <->
  ends_with_space (take n (clean_text s)) = false.
Proof.
  pose proof (clean_text_clean s) as Hc. unfold clean in Hc.
  apply andb_prop in Hc as [Ht Hs].
  set (p := take n (clean_text s)) in *.
  assert (Hlen : String.length p <= n).
  { unfold p, take. rewrite substring_0_length. lia. }
  split.
  - intros H.
    assert (Hfix : clean_text p = p).
    { rewrite <- H at 2. unfold take. symmetry. apply substring_0_all.
      etransitivity; [apply clean_text_length | exact Hlen]. }
    rewrite <- Hfix. apply tight_no_trailing_space.
    pose proof (clean_text_clean p) as Hc'. unfold clean in Hc'.
    now apply andb_prop in Hc' as [Hc' _].
  - intros He.
    assert (Htp : tight p = true).
    { apply ptight_tight; [apply take_tight; exact Ht | exact He]. }
    rewrite clean_text_fixed; [apply take_take|].
    unfold clean. rewrite Htp. now apply take_starts.
Qed.

Lemma normalize_take (s : string) :
  normalize s = take (Z.to_nat MAX_TOKENS) (clean_text s).
Proof. unfold normalize. apply truncate_text_take. discriminate. Qed.

(** C6, as stated, fails: normalising [long_text] leaves a text that ends
    with the space at which it was cut, and a second pass removes it. *)
Lemma normalize_not_idempotent :
  normalize (normalize long_text) <> normalize long_text.
Proof.
  intros H.
  assert (H1 : ends_with_space (normalize long_text) = true)
    by (vm_compute; reflexivity).
  assert (H2 : ends_with_space (normalize (normalize long_text)) = false)
    by (vm_compute; reflexivity).
  rewrite H in H2. congruence.
Qed.

(** C6, amended.  [clean_text] is idempotent.  The normaliser (clean, then
    truncate to the default budget) returns its own output unchanged exactly
    when that output does not end with a space, and this is the case
    whenever the cleaned text fits in the budget. *)
Theorem normalize_idempotent_iff (s : string) :
  clean_text (clean_text s) = clean_text s /\
  (normalize (normalize s) = normalize s <->
   ends_with_space (normalize s) = false) /\
  ((Z.of_nat (String.length (clean_text s)) <= MAX_TOKENS)%Z ->
   normalize (normalize s) = normalize s).
Proof.
  assert (Hiff : normalize (normalize s) = normalize s <->
                 ends_with_space (normalize s) = false).
  { rewrite (normalize_take (normalize s)), (normalize_take s).
    apply take_clean_fixed_iff. }
  split; [|split].
  - apply clean_text_fixed, clean_text_clean.
  - exact Hiff.
  - intros Hfit. apply Hiff.
    unfold normalize.
    rewrite (proj2 (truncate_text_within_budget_aux _ _) Hfit).
    apply tight_no_trailing_space.
    pose proof (clean_text_clean s) as Hc. unfold clean in Hc.
    now apply andb_prop in Hc as [Hc _].
Qed.

Lemma normalize_idempotent_iff_witness :
  (Z.of_nat (String.length (clean_text "  Article   21
 of the  Constitution ")) <= MAX_TOKENS)%Z /\
  normalize (normalize "  Article   21
 of the  Constitution ") = normalize "  Article   21
 of the  Constitution ".
Proof.
  assert (H : (Z.of_nat (String.length (clean_text "  Article   21
 of the  Constitution ")) <= MAX_TOKENS)%Z) by (vm_compute; discriminate).
  split; [exact H|].
  exact (proj2 (proj2 (normalize_idempotent_iff _)) H).
Defined.

(* ================================================================== *)
(** * The completion step without a credential                         *)
(* ================================================================== *)

(** With a secrets file that does not hold the key and an environment
    that does not hold it either, [call_groq_api] returns [None] without
    raising, and the only thing it does is to put the configuration error on
    the page: no request is sent, whatever the service would have answered. *)
Lemma missing_credential_with_secrets_file
    (float exn : Type)
    (entries environ : string -> option string)
    (service : Groq.request float -> outcome exn (option Groq.response))
    (prompt model : string) (temperature : float)
    (tr : list (event float)) :
  entries "GROQ_API_KEY" = None ->
  environ "GROQ_API_KEY" = None ->
  call_groq_api float exn (SecretsFile entries) environ service prompt model
                temperature tr =
  (Return None,
   (tr ++ [StError
     "Please set your GROQ_API_KEY in Streamlit secrets or environment variables."])%list).
Proof.
  intros Hs He. unfold call_groq_api, get_groq_api_key, bind, lift.
  rewrite Hs, He. reflexivity.
Qed.


(* ================================================================== *)
(** * The line state machine                                           *)
(* ================================================================== *)

Lemma option_label_labelled (l : string) :
  Re.matches option_label l = true <-> labelled l.
Proof.
  unfold labelled, Re.matches. split.
  - destruct l as [|a [|b rest]]; simpl.
    + discriminate.
    + destruct (_ && _); discriminate.
    + intros H. exists a, b, rest. split; [reflexivity|].
      destruct a as [[] [] [] [] [] [] [] []]; try discriminate H;
        (split; [simpl; tauto|]);
        destruct b as [[] [] [] [] [] [] [] []]; try discriminate H;
        simpl; tauto.
  - intros (a & b & rest & -> & Ha & Hb).
    simpl in Ha, Hb.
    destruct Ha as [<-|[<-|[<-|[<-|[]]]]];
      destruct Hb as [<-|[<-|[]]]; reflexivity.
Qed.

(** C4.  A line whose stripped form starts with a letter from A to D
    followed by [)] or [.] sets the state to [Options] and appends the
    stripped line to the options, whatever the state was before; the other
    locals are left as they were. *)
Theorem option_line_from_any_state (st : locals) (line : string) :
  labelled (Py.strip line) ->
  state (step_line st line) = Options /\
  options (step_line st line) = (options st ++ [Py.strip line])%list /\
  scenario (step_line st line) = scenario st /\
  answer (step_line st line) = answer st /\
  explanation (step_line st line) = explanation st.
Proof.
  intros H. apply option_label_labelled in H.
  unfold step_line. rewrite H. simpl. repeat split.
Qed.

Lemma option_line_from_any_state_witness :
  labelled (Py.strip "  B. Invalid ") /\
  state (step_line (Locals ["s"] ["A) Valid"] "C" "e" Explanation)
                   "  B. Invalid ") = Options /\
  options (step_line (Locals ["s"] ["A) Valid"] "C" "e" Explanation)
                     "  B. Invalid ") = ["A) Valid"; "B. Invalid"].
Proof.
  assert (H : labelled (Py.strip "  B. Invalid ")).
  { exists "B"%char, "."%char, " Invalid". simpl. tauto. }
  split; [exact H|].
  destruct (option_line_from_any_state
              (Locals ["s"] ["A) Valid"] "C" "e" Explanation)
              "  B. Invalid " H) as (Hs & Ho & _).
  split; [exact Hs | exact Ho].
Defined.

(** ** Emission *)

Lemma truthy_true (s : string) : Py.truthy s = true <-> s <> "".
Proof. destruct s; simpl; split; congruence. Qed.

Lemma nonempty_true {A} (l : list A) : nonempty l = true <-> l <> [].
Proof. destruct l; simpl; split; congruence. Qed.

Lemma emit_some (st : locals) :
  emit st <> None <-> options st <> [] /\ answer st <> "".
Proof.
  unfold emit. rewrite <- nonempty_true, <- truthy_true.
  destruct (nonempty (options st)), (Py.truthy (answer st)); simpl;
    split; try congruence; intuition congruence.
Qed.

Lemma emit_record (st : locals) (q : MCQ.t) :
  emit st = Some q ->
  q = MCQ.Build (Py.join " " (scenario st)) (options st) (answer st)
                (explanation st).
Proof.
  unfold emit. destruct (_ && _); [|discriminate].
  intros [= <-]. reflexivity.
Qed.

Lemma parse_block_long (block : string) :
  20 <= String.length (Py.strip block) ->
  parse_block block = emit (run_lines (block_lines block)).
Proof.
  intros H. unfold parse_block, block_lines.
  destruct (Py.strip block) as [|c b] eqn:E; [simpl in H; lia|].
  cbn [Py.truthy negb orb].
  destruct (Nat.ltb_spec (String.length (String c b)) 20); [lia|reflexivity].
Qed.

Lemma parse_block_short (block : string) :
  String.length (Py.strip block) < 20 -> parse_block block = None.
Proof.
  intros H. unfold parse_block.
  destruct (Nat.ltb_spec (String.length (Py.strip block)) 20); [|lia].
  now rewrite orb_true_r.
Qed.

(** The answer stays empty as long as no line starts with the marker. *)
Lemma answer_without_marker (lines : list string) (st : locals) :
  (forall l, In l lines -> Py.startswith (Py.strip l) "Correct Answer:" = false) ->
  answer (fold_left step_line lines st) = answer st.
Proof.
  revert st; induction lines as [|l lines IH]; intros st H; [reflexivity|].
  simpl. rewrite IH by (intros; apply H; now right).
  unfold step_line. rewrite (H l) by now left.
  repeat match goal with |- context [if ?b then _ else _] => destruct b end;
    reflexivity.
Qed.

(** The options stay empty, and the state is never [Options], as long as no
    line carries an option label. *)
Lemma options_without_label (lines : list string) (st : locals) :
  (forall l, In l lines -> Re.matches option_label (Py.strip l) = false) ->
  options st = [] -> state st <> Options ->
  options (fold_left step_line lines st) = [].
Proof.
  revert st; induction lines as [|l lines IH]; intros st H Ho Hs; [exact Ho|].
  simpl. apply IH.
  - intros; apply H; now right.
  - unfold step_line. rewrite (H l) by now left.
    destruct (state st) eqn:E; try congruence; cbn [is_scenario is_options];
      repeat match goal with |- context [if ?b then _ else _] => destruct b end;
      simpl; assumption.
  - unfold step_line. rewrite (H l) by now left.
    destruct (state st) eqn:E; try congruence; cbn [is_scenario is_options];
      repeat match goal with |- context [if ?b then _ else _] => destruct b end;
      simpl; congruence.
Qed.

(** What one block contributes: a record exactly when it passes the length
    filter and the line loop ends with a non-empty options list and a
    non-empty answer; nothing when no line starts with [Correct Answer:],
    and nothing when no line carries an option label. *)
Lemma emission_rule_block :
  (forall block,
     parse_block block <> None <->
     20 <= String.length (Py.strip block) /\
     options (run_lines (block_lines block)) <> [] /\
     answer (run_lines (block_lines block)) <> "") /\
  (forall block q,
     parse_block block = Some q ->
     MCQ.options q = options (run_lines (block_lines block)) /\
     MCQ.answer q = answer (run_lines (block_lines block))) /\
  (forall block,
     (forall l, In l (block_lines block) ->
                Py.startswith (Py.strip l) "Correct Answer:" = false) ->
     parse_block block = None) /\
  (forall block,
     (forall l, In l (block_lines block) ->
                Re.matches option_label (Py.strip l) = false) ->
     parse_block block = None) /\
  (exists block q,
     parse_block block = Some q /\
     MCQ.scenario q = "" /\ MCQ.explanation q = "").
Proof.
  assert (Hcases : forall block,
            parse_block block = None \/
            (20 <= String.length (Py.strip block) /\
             parse_block block = emit (run_lines (block_lines block)))).
  { intros block.
    destruct (Nat.lt_ge_cases (String.length (Py.strip block)) 20) as [Hlt|Hge].
    - left. now apply parse_block_short.
    - right. split; [exact Hge | now apply parse_block_long]. }
  split; [|split; [|split; [|split]]].
  - intros block. destruct (Hcases block) as [Hn | [Hlen Hp]].
    + split; [congruence|]. intros (Hlen & Ho & Ha).
      rewrite parse_block_long by exact Hlen. now apply emit_some.
    + rewrite Hp, emit_some. tauto.
  - intros block q Hq. destruct (Hcases block) as [Hn | [_ Hp]]; [congruence|].
    rewrite Hp in Hq. apply emit_record in Hq. subst q. split; reflexivity.
  - intros block H. destruct (Hcases block) as [Hn | [_ Hp]]; [exact Hn|].
    rewrite Hp. unfold emit, run_lines.
    rewrite (answer_without_marker _ _ H). simpl. now rewrite andb_false_r.
  - intros block H. destruct (Hcases block) as [Hn | [_ Hp]]; [exact Hn|].
    rewrite Hp. unfold emit, run_lines.
    rewrite (options_without_label _ _ H); [reflexivity | reflexivity |].
    simpl. discriminate.
  - exists "A) Yes
Correct Answer: A".
    eexists. split; [vm_compute; reflexivity|]. split; reflexivity.
Qed.

(** C5.  A block whose trimmed length is below 20 characters contributes no
    record, whatever it contains: the list of records is left as it was. *)
Theorem short_block_dropped (block : string) (mcqs : list MCQ.t) :
  String.length (Py.strip block) < 20 ->
  parse_block block = None /\ block_iter mcqs block = mcqs.
Proof.
  intros H. apply parse_block_short in H.
  unfold block_iter. rewrite H. split; reflexivity.
Qed.

(** A 19-character block with an option line and a non-empty answer: the
    line loop alone would accept it, the length filter drops it. *)
Example short_block_would_emit :
  emit (run_lines (block_lines "A)
Correct Answer:B")) = Some (MCQ.Build "" ["A)"] "B" "").
Proof. reflexivity. Qed.

Lemma short_block_dropped_witness :
  String.length (Py.strip " A)
Correct Answer:B ") < 20 /\
  parse_block " A)
Correct Answer:B " = None /\
  block_iter [] " A)
Correct Answer:B " = [].
Proof.
  assert (H : String.length (Py.strip " A)
Correct Answer:B ") < 20) by (apply Nat.ltb_lt; reflexivity).
  split; [exact H|].
  exact (short_block_dropped _ [] H).
Defined.

(* ================================================================== *)
(** * The loop over the blocks                                         *)
(* ================================================================== *)

Lemma fold_block_iter (blocks : list string) (mcqs : list MCQ.t) :
  fold_left block_iter blocks mcqs =
  (mcqs ++ flat_map (fun b => option_list (parse_block b)) blocks)%list.
Proof.
  revert mcqs; induction blocks as [|b blocks IH]; intros mcqs; simpl.
  - now rewrite app_nil_r.
  - rewrite IH. unfold block_iter.
    destruct (parse_block b); simpl; [now rewrite <- app_assoc | reflexivity].
Qed.

Lemma parse_mcqs_flat_map (raw_output : string) :
  parse_mcqs raw_output =
  flat_map (fun b => option_list (parse_block b))
           (Re.split block_delimiter raw_output).
Proof. unfold parse_mcqs. now rewrite fold_block_iter. Qed.

(** C3.  The end-to-end scenario of the specification parses to the one
    record it names. *)
Theorem parse_example :
  parse_mcqs example_raw =
  [ MCQ.Build "A tenant is evicted without notice."
              ["A) Valid"; "B) Invalid"; "C) Unclear"; "D) None"]
              "B"
              "Due process requires notice." ].
Proof. vm_compute. reflexivity. Qed.

(** ** The emission rule in the loop over the blocks *)

Lemma parse_block_emitsb (block : string) :
  parse_block block =
  if emitsb block then Some (record_of (run_lines (block_lines block)))
  else None.
Proof.
  unfold emitsb.
  destruct (Nat.leb_spec 20 (String.length (Py.strip block))) as [Hge|Hlt].
  - rewrite parse_block_long by exact Hge. reflexivity.
  - now rewrite parse_block_short.
Qed.

Lemma flat_map_emitsb (blocks : list string) :
  flat_map (fun b => option_list (parse_block b)) blocks =
  map (fun b => record_of (run_lines (block_lines b))) (filter emitsb blocks).
Proof.
  induction blocks as [|b blocks IH]; [reflexivity|].
  cbn [flat_map filter]. rewrite parse_block_emitsb, IH.
  destruct (emitsb b); reflexivity.
Qed.

Lemma emitsb_true (block : string) :
  emitsb block = true <->
  20 <= String.length (Py.strip block) /\
  options (run_lines (block_lines block)) <> [] /\
  answer (run_lines (block_lines block)) <> "".
Proof.
  unfold emitsb. rewrite !andb_true_iff, Nat.leb_le, nonempty_true, truthy_true.
  tauto.
Qed.

Lemma block_iter_emitsb (mcqs : list MCQ.t) (block : string) :
  block_iter mcqs block =
  if emitsb block
  then (mcqs ++ [record_of (run_lines (block_lines block))])%list
  else mcqs.
Proof.
  unfold block_iter. rewrite parse_block_emitsb.
  destruct (emitsb block); reflexivity.
Qed.

(** C2.  In the loop over the blocks, an iteration appends a record to the
    list exactly when the block passes the length filter (so that the line
    loop processes it) and the line loop ends with a non-empty options list
    and a non-empty answer; the record appended is made of the accumulated
    values, and otherwise the list is left as it was.  So [parse_mcqs]
    returns, in order, the records of exactly the blocks that pass this
    test.  A block none of whose lines starts with [Correct Answer:] leaves
    the list unchanged, and so does a block none of whose lines carries an
    option label; and some raw output gives a record whose scenario and
    explanation are empty. *)
Theorem emission_rule :
  (forall block,
     emitsb block = true <->
     20 <= String.length (Py.strip block) /\
     options (run_lines (block_lines block)) <> [] /\
     answer (run_lines (block_lines block)) <> "") /\
  (forall block mcqs,
     block_iter mcqs block =
     if emitsb block
     then (mcqs ++ [record_of (run_lines (block_lines block))])%list
     else mcqs) /\
  (forall raw_output,
     parse_mcqs raw_output =
     map (fun b => record_of (run_lines (block_lines b)))
         (filter emitsb (Re.split block_delimiter raw_output))) /\
  (forall block mcqs,
     (forall l, In l (block_lines block) ->
                Py.startswith (Py.strip l) "Correct Answer:" = false) ->
     block_iter mcqs block = mcqs) /\
  (forall block mcqs,
     (forall l, In l (block_lines block) ->
                Re.matches option_label (Py.strip l) = false) ->
     block_iter mcqs block = mcqs) /\
  (exists raw_output q,
     parse_mcqs raw_output = [q] /\
     MCQ.scenario q = "" /\ MCQ.explanation q = "").
Proof.
  destruct emission_rule_block as (_ & _ & Hans & Hopt & _).
  split; [exact emitsb_true|]. split; [exact (fun b m => block_iter_emitsb m b)|].
  split; [intros raw; now rewrite parse_mcqs_flat_map, flat_map_emitsb|].
  split; [|split].
  - intros block mcqs H. unfold block_iter. now rewrite (Hans block H).
  - intros block mcqs H. unfold block_iter. now rewrite (Hopt block H).
  - exists "A) Yes
Correct Answer: A".
    eexists. split; [vm_compute; reflexivity|]. split; reflexivity.
Qed.

Lemma emission_rule_witness :
  (forall l, In l (block_lines "A tenant is evicted.
A) Valid
B) Invalid") ->
             Py.startswith (Py.strip l) "Correct Answer:" = false) /\
  block_iter [] "A tenant is evicted.
A) Valid
B) Invalid" = [] /\
  block_iter [] "A tenant is evicted.
A) Valid
Correct Answer: A" =
  [MCQ.Build "A tenant is evicted." ["A) Valid"] "A" ""].
Proof.
  assert (H : forall l, In l (block_lines "A tenant is evicted.
A) Valid
B) Invalid") ->
             Py.startswith (Py.strip l) "Correct Answer:" = false).
  { intros l Hl. vm_compute in Hl.
    destruct Hl as [<-|[<-|[<-|[]]]]; reflexivity. }
  split; [exact H|]. split.
  - exact (proj1 (proj2 (proj2 (proj2 emission_rule))) _ [] H).
  - rewrite (proj1 (proj2 emission_rule)). reflexivity.
Defined.

(* ================================================================== *)
(** * The block delimiter                                              *)
(* ================================================================== *)

Lemma match_here_all_opt (r : Re.regex) (s : string) :
  Forall (fun it => Re.qnt it = Re.Opt) r -> Re.match_here r s <> None.
Proof.
  intros H; revert s; induction H as [|it r Hit _ IH]; intros s.
  - discriminate.
  - cbn [Re.match_here]. rewrite Hit.
    destruct s as [|c s'];
      [|destruct (Re.cls it c); [destruct (Re.match_here r s') eqn:E|]];
      solve [discriminate | apply IH].
Qed.

Lemma isdigit_cases (d : ascii) :
  Py.isdigit d = true ->
  In d ["0"; "1"; "2"; "3"; "4"; "5"; "6"; "7"; "8"; "9"]%char.
Proof.
  destruct d as [[] [] [] [] [] [] [] []]; intros H;
    try discriminate H; simpl; tauto.
Qed.

(** A digit followed by a period is a match of the delimiter by itself. *)
Lemma digit_period_matches (d : ascii) (post : string) :
  Py.isdigit d = true ->
  Re.match_here block_delimiter (String d (String "." post)) <> None.
Proof.
  intros H. apply isdigit_cases in H. simpl in H.
  assert (T : forall s,
    Re.match_here [Re.Item (Re.chr "*") Re.Opt; Re.Item (Re.chr "*") Re.Opt;
                   Re.Item (Re.chr Py.nl) Re.Opt] s <> None).
  { intros s. apply match_here_all_opt. repeat constructor. }
  specialize (T post).
  repeat (destruct H as [<-|H]; [cbn; exact T|]). destruct H.
Qed.

Lemma split_go_nonempty (r : Re.regex) (s : string) (k : nat) :
  Re.split_go r s k <> [].
Proof.
  revert k; induction s as [|c s IH]; intros k; cbn [Re.split_go].
  - discriminate.
  - destruct k; [|apply IH].
    destruct (Re.match_here r (String c s)); [discriminate|].
    specialize (IH 0). destruct (Re.split_go r s 0); [congruence|discriminate].
Qed.

Lemma add_char_length (c : ascii) (l : list string) :
  l <> [] -> List.length (Py.add_char c l) = List.length l.
Proof. destruct l; [congruence | reflexivity]. Qed.

(** Wherever a match of the pattern starts, the text is cut in at least two
    pieces. *)
Lemma split_at_least_two (r : Re.regex) (pre m : string) :
  Re.match_here r m <> None -> m <> "" ->
  2 <= List.length (Re.split r (pre ++ m)).
Proof.
  intros Hm Hne. unfold Re.split.
  assert (H1 : forall s k, 1 <= List.length (Re.split_go r s k)).
  { intros s k. pose proof (split_go_nonempty r s k).
    destruct (Re.split_go r s k); [congruence | simpl; lia]. }
  induction pre as [|c pre IH].
  - destruct m as [|c m]; [congruence|]. cbn [append Re.split_go].
    destruct (Re.match_here r (String c m)); [|congruence].
    cbn [List.length]. specialize (H1 m (String.length (String c m) - String.length s - 1)).
    lia.
  - cbn [append Re.split_go].
    destruct (Re.match_here r (String c (pre ++ m))).
    + cbn [List.length].
      specialize (H1 (pre ++ m)
        (String.length (String c (pre ++ m)) - String.length s - 1)). lia.
    + rewrite add_char_length by apply split_go_nonempty. exact IH.
Qed.

(** Any digit followed by a period, wherever it stands in the raw output,
    makes [re.split] cut the text. *)
Lemma digit_period_splits (pre post : string) (d : ascii) :
  Py.isdigit d = true ->
  2 <= List.length
         (Re.split block_delimiter (pre ++ String d (String "." post))).
Proof.
  intros H. apply split_at_least_two; [now apply digit_period_matches|].
  discriminate.
Qed.

(** C10.  The delimiter is not anchored to line starts.  In this raw output
    the citation [21.] stands in the middle of the first line of the only
    question; [re.split] cuts the text there, the question is spread over
    two blocks, and the record that is parsed has lost the part of the
    scenario before the citation. *)
Theorem delimiter_not_anchored :
  exists raw pre post,
    raw = pre ++ "21." ++ post /\
    In "1. Under Article 21. of the Constitution a tenant is evicted."
       (Py.split_nl raw) /\
    Re.split block_delimiter raw = [""; " Under Article "; post] /\
    parse_block " Under Article " = None /\
    parse_mcqs raw =
    [ MCQ.Build "of the Constitution a tenant is evicted."
                ["A) Valid"; "B) Invalid"; "C) Unclear"; "D) None"]
                "B"
                "Due process requires notice." ].
Proof.
  exists citation_raw, "1. Under Article ",
    (" of the Constitution a tenant is evicted.
A) Valid
B) Invalid
C) Unclear
D) None
Correct Answer: B
Explanation: Due process requires notice.").
  split; [reflexivity|].
  split; [vm_compute; left; reflexivity|].
  split; [vm_compute; reflexivity|].
  split; vm_compute; reflexivity.
Qed.

(* ================================================================== *)
(** * The delimiter, deterministically                                 *)
(* ================================================================== *)

Lemma opt_chr (c0 : ascii) (r : Re.regex) (s : string) :
  (forall s', Re.match_here r s' = None ->
              Re.match_here r (String c0 s') = None) ->
  Re.match_here (Re.Item (Re.chr c0) Re.Opt :: r) s =
  Re.match_here r (skip1 c0 s).
Proof.
  intros Hback. destruct s as [|c s']; [reflexivity|].
  cbn [Re.match_here Re.qnt Re.cls skip1]. unfold Re.chr.
  destruct (Ascii.eqb_spec c c0) as [->|Hne]; [|reflexivity].
  destruct (Re.match_here r s') eqn:E; [reflexivity|].
  now apply Hback.
Qed.

Lemma match_closing (s : string) :
  Re.match_here
    [ Re.Item (Re.chr "*") Re.Opt; Re.Item (Re.chr "*") Re.Opt;
      Re.Item (Re.chr Py.nl) Re.Opt ] s = Some (closing s).
Proof.
  unfold closing.
  assert (H3 : forall t,
    Re.match_here [Re.Item (Re.chr Py.nl) Re.Opt] t = Some (skip1 Py.nl t)).
  { intros [|c t]; [reflexivity|]. cbn. unfold Re.chr.
    destruct (Ascii.eqb c Py.nl); reflexivity. }
  assert (H2 : forall t,
    Re.match_here [Re.Item (Re.chr "*") Re.Opt;
                   Re.Item (Re.chr Py.nl) Re.Opt] t =
    Some (skip1 Py.nl (skip1 "*" t))).
  { intros t. rewrite opt_chr; [apply H3|].
    intros s' H. rewrite H3 in H. discriminate. }
  rewrite opt_chr; [apply H2|].
  intros s' H. rewrite H2 in H. discriminate.
Qed.

Lemma match_after_digits (s : string) :
  Re.match_here after_digits s =
  if starts_with_period s then Some (closing (skip1 "." s)) else None.
Proof.
  destruct s as [|c s']; [reflexivity|].
  unfold after_digits. cbn [Re.match_here Re.qnt Re.cls].
  unfold Re.chr at 1. cbn [starts_with_period skip1].
  destruct (Ascii.eqb c "."); [apply match_closing | reflexivity].
Qed.

Lemma isdigit_not_period (c : ascii) :
  Py.isdigit c = true -> Ascii.eqb c "." = false.
Proof.
  intros H. apply isdigit_cases in H. simpl in H.
  repeat (destruct H as [<-|H]; [reflexivity|]). destruct H.
Qed.

Lemma isdigit_not_opening (c : ascii) :
  Py.isdigit c = true ->
  Ascii.eqb c Py.nl = false /\ Ascii.eqb c "*" = false.
Proof.
  intros H. apply isdigit_cases in H. simpl in H.
  repeat (destruct H as [<-|H]; [split; reflexivity|]). destruct H.
Qed.

Lemma match_from_digits (s : string) :
  Re.match_here from_digits s = option_map closing (digit_run s).
Proof.
  unfold from_digits. cbn [Re.match_here Re.qnt Re.cls].
  induction s as [|c s IH]; [reflexivity|].
  cbn [Re.plus_loop digit_run].
  destruct (Py.isdigit c) eqn:Ec; [|reflexivity].
  rewrite IH. destruct (digit_run s); [reflexivity|].
  cbn [option_map]. rewrite match_after_digits.
  destruct (starts_with_period s); reflexivity.
Qed.

Lemma digit_run_not_digit (c : ascii) (s : string) :
  Py.isdigit c = false -> digit_run (String c s) = None.
Proof. intros H. cbn. now rewrite H. Qed.

(** The delimiter matches at the head of [s] exactly when, after the
    optional newline and emphasis, a run of digits and a period follow; the
    match then ends after the optional emphasis and newline that come next. *)
Lemma match_block_delimiter (s : string) :
  Re.match_here block_delimiter s =
  option_map closing (digit_run (opening s)).
Proof.
  unfold opening.
  assert (H3 : forall t,
    Re.match_here (Re.Item (Re.chr "*") Re.Opt :: from_digits) t =
    option_map closing (digit_run (skip1 "*" t))).
  { intros t. rewrite opt_chr; [apply match_from_digits|].
    intros s' _. rewrite match_from_digits.
    now rewrite digit_run_not_digit. }
  assert (H2 : forall t,
    Re.match_here (Re.Item (Re.chr "*") Re.Opt ::
                   Re.Item (Re.chr "*") Re.Opt :: from_digits) t =
    option_map closing (digit_run (skip1 "*" (skip1 "*" t)))).
  { intros t. rewrite opt_chr; [apply H3|].
    intros s' H. rewrite H3 in *. cbn [skip1]. rewrite Ascii.eqb_refl.
    destruct s' as [|x s'];
      [reflexivity|]. cbn [skip1] in H.
    destruct (Ascii.eqb_spec x "*") as [->|_]; [|exact H].
    now rewrite digit_run_not_digit. }
  change block_delimiter
    with (Re.Item (Re.chr Py.nl) Re.Opt :: Re.Item (Re.chr "*") Re.Opt ::
          Re.Item (Re.chr "*") Re.Opt :: from_digits).
  rewrite opt_chr; [apply H2|].
  intros s' _. rewrite H2.
  change (skip1 "*" (skip1 "*" (String Py.nl s'))) with (String Py.nl s').
  now rewrite digit_run_not_digit.
Qed.

(** ** Where the delimiter does not match *)

Lemma has_digit_period_cons (c : ascii) (s : string) :
  has_digit_period (String c s) = false ->
  Py.isdigit c && starts_with_period s = false /\ has_digit_period s = false.
Proof. cbn [has_digit_period]. intros H. now apply orb_false_elim in H. Qed.

Lemma tail_ok_digit_run (t : string) : tail_ok t = true -> digit_run t = None.
Proof.
  destruct t as [|c t]; [reflexivity|]. cbn [tail_ok]. intros H.
  apply Ascii.eqb_eq in H. subst c. reflexivity.
Qed.

Lemma tail_ok_period (t : string) :
  tail_ok t = true -> starts_with_period t = false.
Proof.
  destruct t as [|c t]; [reflexivity|]. cbn [tail_ok]. intros H.
  apply Ascii.eqb_eq in H. subst c. reflexivity.
Qed.

Lemma digit_run_free (y t : string) :
  has_digit_period y = false -> tail_ok t = true ->
  digit_run (y ++ t) = None.
Proof.
  intros Hy Ht. induction y as [|c y IH]; [now apply tail_ok_digit_run|].
  apply has_digit_period_cons in Hy as [Hc Hy].
  cbn [append digit_run]. destruct (Py.isdigit c); [|reflexivity].
  rewrite (IH Hy). cbn [andb] in Hc.
  destruct y as [|x y]; cbn [append];
    [now rewrite (tail_ok_period _ Ht) | cbn in Hc |- *; now rewrite Hc].
Qed.

Lemma skip1_free (c0 : ascii) (y t : string) :
  has_digit_period y = false ->
  y <> "" \/ skip1 c0 t = t ->
  exists y', skip1 c0 (y ++ t) = y' ++ t /\ has_digit_period y' = false.
Proof.
  intros Hy Hor. destruct y as [|c y].
  - destruct Hor as [Hne|Ht]; [congruence|].
    exists "". cbn [append]. now split.
  - cbn [append skip1]. apply has_digit_period_cons in Hy as Hy'.
    destruct (Ascii.eqb c c0).
    + exists y. now split.
    + exists (String c y). now split.
Qed.

Lemma tail_ok_skip_star (t : string) : tail_ok t = true -> skip1 "*" t = t.
Proof.
  destruct t as [|c t]; [reflexivity|]. cbn [tail_ok]. intros H.
  apply Ascii.eqb_eq in H. subst c. reflexivity.
Qed.

(** No match starts inside a text that has no digit followed by a period,
    when what comes after it is the end of the output or a newline. *)
Lemma no_match_inside (x t : string) :
  x <> "" -> has_digit_period x = false -> tail_ok t = true ->
  Re.match_here block_delimiter (x ++ t) = None.
Proof.
  intros Hne Hx Ht. rewrite match_block_delimiter. unfold opening.
  destruct (skip1_free Py.nl x t Hx (or_introl Hne)) as (y1 & -> & H1).
  destruct (skip1_free "*" y1 t H1 (or_intror (tail_ok_skip_star t Ht)))
    as (y2 & -> & H2).
  destruct (skip1_free "*" y2 t H2 (or_intror (tail_ok_skip_star t Ht)))
    as (y3 & -> & H3).
  now rewrite digit_run_free.
Qed.

(** ** Where it does *)

Lemma digit_run_digits (num u : string) :
  all_digits num = true -> num <> "" ->
  digit_run (num ++ String "." u) = Some u.
Proof.
  induction num as [|d num IH]; [congruence|].
  cbn [all_digits append digit_run]. intros H _.
  apply andb_prop in H as [Hd Hn]. rewrite Hd.
  destruct num as [|d' num].
  - cbn. reflexivity.
  - rewrite IH; [reflexivity | exact Hn | discriminate].
Qed.

Lemma opening_digits (num u : string) :
  all_digits num = true -> num <> "" ->
  opening (num ++ u) = num ++ u /\
  opening (String Py.nl (num ++ u)) = num ++ u.
Proof.
  destruct num as [|d num]; [congruence|]. cbn [all_digits]. intros H _.
  apply andb_prop in H as [Hd _].
  destruct (isdigit_not_opening d Hd) as [H1 H2].
  unfold opening. cbn [append].
  do 4 (cbn [skip1]; rewrite ?H1, ?H2, ?Ascii.eqb_refl).
  split; reflexivity.
Qed.

(** A marker [N.] followed by a space is matched whole, with the newline
    before it when there is one. *)
Lemma match_marker (num rest : string) :
  all_digits num = true -> num <> "" ->
  Re.match_here block_delimiter (num ++ String "." (String " " rest)) =
    Some (String " " rest) /\
  Re.match_here block_delimiter
      (String Py.nl (num ++ String "." (String " " rest))) =
    Some (String " " rest).
Proof.
  intros Hd Hne.
  destruct (opening_digits num (String "." (String " " rest)) Hd Hne)
    as [H1 H2].
  rewrite !match_block_delimiter, H1, H2, digit_run_digits by assumption.
  split; reflexivity.
Qed.

(** ** Splitting *)

Lemma split_go_skip (r : Re.regex) (m u : string) :
  Re.split_go r (m ++ u) (String.length m) = Re.split_go r u 0.
Proof.
  induction m as [|c m IH]; [reflexivity|]. exact IH.
Qed.

Lemma split_go_free (x t : string) :
  has_digit_period x = false -> tail_ok t = true ->
  Re.split_go block_delimiter (x ++ t) 0 =
  prepend x (Re.split_go block_delimiter t 0).
Proof.
  intros Hx Ht. induction x as [|c x IH].
  - cbn [append]. pose proof (split_go_nonempty block_delimiter t 0).
    destruct (Re.split_go block_delimiter t 0); [congruence|reflexivity].
  - cbn [append Re.split_go].
    change (String c (x ++ t)) with (String c x ++ t).
    rewrite no_match_inside by (assumption || discriminate).
    apply has_digit_period_cons in Hx as [_ Hx]. rewrite (IH Hx).
    destruct (Re.split_go block_delimiter t 0); reflexivity.
Qed.

(** The two equations of [re.split]: where no match starts, the character
    joins the current piece; where a match [m] starts, the piece ends and the
    search resumes after [m]. *)
Lemma split_no_match (r : Re.regex) (c : ascii) (s : string) :
  Re.match_here r (String c s) = None ->
  Re.split r (String c s) = Py.add_char c (Re.split r s).
Proof. intros H. unfold Re.split. cbn [Re.split_go]. now rewrite H. Qed.

Lemma split_go_match (r : Re.regex) (m u : string) :
  m <> "" -> Re.match_here r (m ++ u) = Some u ->
  Re.split_go r (m ++ u) 0 = "" :: Re.split_go r u 0.
Proof.
  intros Hne Hm. destruct m as [|c m]; [congruence|].
  cbn [append Re.split_go].
  change (String c (m ++ u)) with (String c m ++ u). rewrite Hm.
  f_equal. rewrite <- (split_go_skip r m u). f_equal.
  cbn [String.length append]. rewrite length_append. lia.
Qed.

Lemma split_go_marker (num rest : string) :
  all_digits num = true -> num <> "" ->
  Re.split_go block_delimiter (num ++ String "." (String " " rest)) 0 =
    "" :: Re.split_go block_delimiter (String " " rest) 0 /\
  Re.split_go block_delimiter
      (String Py.nl (num ++ String "." (String " " rest))) 0 =
    "" :: Re.split_go block_delimiter (String " " rest) 0.
Proof.
  intros Hd Hne. destruct (match_marker num rest Hd Hne) as [H1 H2]. split.
  - replace (num ++ String "." (String " " rest))
      with ((num ++ ".") ++ String " " rest) in *
      by (now rewrite append_assoc).
    apply split_go_match; [destruct num; [congruence|discriminate] | exact H1].
  - replace (String Py.nl (num ++ String "." (String " " rest)))
      with ((String Py.nl (num ++ ".")) ++ String " " rest) in *
      by (cbn [append]; now rewrite append_assoc).
    apply split_go_match; [discriminate | exact H2].
Qed.

(* ================================================================== *)
(** * Well-formed numbered blocks                                      *)
(* ================================================================== *)

Lemma render_blocks_cons (b : block) (bs : list block) :
  render_blocks (b :: bs) = render_block b ++ following bs.
Proof.
  revert b; induction bs as [|b' bs IH]; intros b.
  - cbn. now rewrite append_nil_r.
  - change (render_blocks (b :: b' :: bs))
      with (render_block b ++ nl_str ++ render_blocks (b' :: bs)).
    now rewrite IH.
Qed.

Lemma well_formed_facts_of (b : block) :
  well_formed b = true -> well_formed_facts b.
Proof.
  unfold well_formed. intros H.
  repeat match type of H with
         | _ && _ = true => let H' := fresh "H" in apply andb_prop in H as [H H']
         end.
  constructor; try assumption.
  - destruct (number b); [discriminate | discriminate].
  - now apply truthy_true.
Qed.

Lemma field_ok_facts (s : string) :
  field_ok s = true -> no_newline s = true /\ has_digit_period s = false.
Proof.
  unfold field_ok. intros H. apply andb_prop in H as [H1 H2].
  now apply negb_true_iff in H2.
Qed.

Lemma has_digit_period_app (x y : string) :
  starts_with_period y = false ->
  has_digit_period (x ++ y) = has_digit_period x || has_digit_period y.
Proof.
  intros Hy. induction x as [|c x IH]; [reflexivity|].
  cbn [append has_digit_period]. rewrite IH, orb_assoc. f_equal. f_equal.
  f_equal. destruct x; [exact Hy | reflexivity].
Qed.

Lemma body_unfold (b : block) :
  body b =
  String " " (scen b ++ String Py.nl
    ("A)" ++ optA b ++ String Py.nl
    ("B)" ++ optB b ++ String Py.nl
    ("C)" ++ optC b ++ String Py.nl
    ("D)" ++ optD b ++ String Py.nl
    ("Correct Answer:" ++ ans b ++ String Py.nl
    ("Explanation:" ++ expl b ++ gap b))))))).
Proof. reflexivity. Qed.

Lemma all_space_free (g : string) :
  all_space g = true ->
  starts_with_period g = false /\ has_digit_period g = false.
Proof.
  induction g as [|c g IH]; [split; reflexivity|].
  cbn [all_space]. intros H. apply andb_prop in H as [Hc Hg].
  destruct (IH Hg) as [_ IH2]. cbn [starts_with_period has_digit_period].
  rewrite IH2.
  destruct c as [[] [] [] [] [] [] [] []]; try discriminate Hc;
    split; reflexivity.
Qed.

Lemma body_free (b : block) :
  well_formed_facts b -> has_digit_period (body b) = false.
Proof.
  intros [_ _ Hs Ha Hb Hc Hd Hans Hexpl Hgap _ _].
  apply field_ok_facts in Hs as [_ Hs], Ha as [_ Ha], Hb as [_ Hb],
    Hc as [_ Hc], Hd as [_ Hd], Hans as [_ Hans], Hexpl as [_ Hexpl].
  apply all_space_free in Hgap as [Hgap1 Hgap2].
  assert (Hlast : has_digit_period (expl b ++ gap b) = false).
  { rewrite has_digit_period_app by exact Hgap1. now rewrite Hexpl, Hgap2. }
  rewrite body_unfold.
  repeat first
    [ rewrite Hlast
    | rewrite has_digit_period_app by reflexivity
    | progress cbn [append has_digit_period Py.isdigit andb orb]
    | progress rewrite ?Hs, ?Ha, ?Hb, ?Hc, ?Hd, ?Hans ].
  reflexivity.
Qed.

Lemma tail_ok_following (bs : list block) : tail_ok (following bs) = true.
Proof. destruct bs; reflexivity. Qed.

(** ** The blocks [re.split] finds *)

Lemma body_space (b : block) : exists r, body b = String " " r.
Proof. eexists. apply body_unfold. Qed.

Lemma split_bodies (bs : list block) (b : block) :
  well_formed_facts b -> Forall well_formed_facts bs ->
  Re.split_go block_delimiter (body b ++ following bs) 0 =
  body b :: map body bs.
Proof.
  intros Hb Hbs. revert b Hb.
  induction Hbs as [|b' bs Hb' _ IH]; intros b Hb.
  - rewrite split_go_free by (now apply body_free || reflexivity).
    cbn. now rewrite append_nil_r.
  - rewrite split_go_free
      by (now apply body_free || apply (tail_ok_following (b' :: bs))).
    cbn [following map]. unfold render_block.
    destruct (body_space b') as [r Hr].
    specialize (IH b' Hb'). rewrite Hr in IH |- *.
    rewrite !append_assoc. cbn [append] in IH |- *.
    destruct (split_go_marker (number b') (r ++ following bs)
                (wf_digits _ Hb') (wf_number _ Hb')) as [_ Hm].
    rewrite Hm, IH. cbn [prepend]. now rewrite append_nil_r.
Qed.

Lemma split_render_blocks (b : block) (bs : list block) :
  Forall well_formed_facts (b :: bs) ->
  Re.split block_delimiter (render_blocks (b :: bs)) =
  "" :: map body (b :: bs).
Proof.
  intros H. inversion H as [|? ? Hb Hbs]; subst.
  rewrite render_blocks_cons. unfold Re.split, render_block.
  destruct (body_space b) as [r Hr].
  pose proof (split_bodies bs b Hb Hbs) as Hsplit. rewrite Hr in Hsplit |- *.
  rewrite !append_assoc. cbn [append] in Hsplit |- *.
  destruct (split_go_marker (number b) (r ++ following bs)
              (wf_digits _ Hb) (wf_number _ Hb)) as [Hm _].
  rewrite Hm, Hsplit. cbn [map]. now rewrite Hr.
Qed.

(* ================================================================== *)
(** * Trimming and line splitting                                      *)
(* ================================================================== *)

Lemma lstrip_app (x y : string) :
  Py.lstrip (x ++ y) = if all_space x then Py.lstrip y else Py.lstrip x ++ y.
Proof.
  induction x as [|c x IH]; [reflexivity|].
  cbn [append Py.lstrip all_space].
  destruct (Py.isspace c); [exact IH | reflexivity].
Qed.

Lemma lstrip_all_space (s : string) : all_space s = true -> Py.lstrip s = "".
Proof.
  induction s as [|c s IH]; [reflexivity|]. cbn [all_space Py.lstrip].
  intros H. apply andb_prop in H as [Hc Hs]. now rewrite Hc, IH.
Qed.

Lemma lstrip_idem (s : string) : Py.lstrip (Py.lstrip s) = Py.lstrip s.
Proof.
  induction s as [|c s IH]; [reflexivity|]. cbn [Py.lstrip].
  destruct (Py.isspace c) eqn:E; [exact IH|]. cbn [Py.lstrip]. now rewrite E.
Qed.

Lemma rstrip_nonspace (c : ascii) (s : string) :
  Py.isspace c = false -> Py.rstrip (String c s) = String c (Py.rstrip s).
Proof.
  intros H. cbn [Py.rstrip]. rewrite H. destruct (Py.rstrip s); reflexivity.
Qed.

Lemma rstrip_keep (x y : string) :
  Py.rstrip y <> "" -> Py.rstrip (x ++ y) = x ++ Py.rstrip y.
Proof.
  intros Hy. induction x as [|c x IH]; [reflexivity|].
  cbn [append Py.rstrip]. rewrite IH.
  destruct (x ++ Py.rstrip y) eqn:E; [|reflexivity].
  destruct x; cbn [append] in E; [congruence | discriminate].
Qed.

Lemma rstrip_idem (s : string) : Py.rstrip (Py.rstrip s) = Py.rstrip s.
Proof.
  induction s as [|c s IH]; [reflexivity|]. cbn [Py.rstrip].
  destruct (Py.rstrip s) as [|x r] eqn:E.
  - destruct (Py.isspace c) eqn:Ec; [reflexivity|].
    cbn [Py.rstrip]. now rewrite Ec.
  - cbn [Py.rstrip] in IH |- *. rewrite IH.
    destruct (Py.rstrip r); reflexivity.
Qed.

Lemma strip_nonspace (c : ascii) (s : string) :
  Py.isspace c = false -> Py.strip (String c s) = String c (Py.rstrip s).
Proof.
  intros H. unfold Py.strip. cbn [Py.lstrip]. rewrite H.
  now apply rstrip_nonspace.
Qed.

Lemma strip_lstrip (s : string) : Py.strip (Py.lstrip s) = Py.strip s.
Proof. unfold Py.strip. now rewrite lstrip_idem. Qed.

Lemma strip_all_space (s : string) : all_space s = true -> Py.strip s = "".
Proof. intros H. unfold Py.strip. now rewrite lstrip_all_space. Qed.

Lemma no_newline_lstrip (s : string) :
  no_newline s = true -> no_newline (Py.lstrip s) = true.
Proof.
  induction s as [|c s IH]; [reflexivity|]. cbn [no_newline Py.lstrip].
  intros H. destruct (Py.isspace c); [|exact H].
  apply andb_prop in H as [_ H]. now apply IH.
Qed.

Lemma no_newline_rstrip (s : string) :
  no_newline s = true -> no_newline (Py.rstrip s) = true.
Proof.
  induction s as [|c s IH]; [reflexivity|]. cbn [no_newline Py.rstrip].
  intros H. apply andb_prop in H as [Hc Hs]. specialize (IH Hs).
  destruct (Py.rstrip s) as [|x r].
  - destruct (Py.isspace c); [reflexivity|]. cbn. now rewrite Hc.
  - cbn [no_newline] in IH |- *. now rewrite Hc, IH.
Qed.

Lemma split_nl_line (x y : string) :
  no_newline x = true ->
  Py.split_nl (x ++ String Py.nl y) = x :: Py.split_nl y.
Proof.
  induction x as [|c x IH]; cbn [append Py.split_nl no_newline].
  - now rewrite Ascii.eqb_refl.
  - intros H. apply andb_prop in H as [Hc Hx].
    apply negb_true_iff in Hc. rewrite Hc, (IH Hx). reflexivity.
Qed.

Lemma split_nl_last (x : string) :
  no_newline x = true -> Py.split_nl x = [x].
Proof.
  induction x as [|c x IH]; [reflexivity|]. cbn [Py.split_nl no_newline].
  intros H. apply andb_prop in H as [Hc Hx].
  apply negb_true_iff in Hc. rewrite Hc, (IH Hx). reflexivity.
Qed.

(* ================================================================== *)
(** * One well-formed block                                            *)
(* ================================================================== *)

Lemma rstrip_explanation (e : string) :
  Py.rstrip ("Explanation:" ++ e) = "Explanation:" ++ Py.rstrip e.
Proof. cbn [append]. now rewrite !rstrip_nonspace by reflexivity. Qed.

Lemma rstrip_all_space (g : string) : all_space g = true -> Py.rstrip g = "".
Proof.
  induction g as [|c g IH]; [reflexivity|]. cbn [all_space Py.rstrip].
  intros H. apply andb_prop in H as [Hc Hg]. now rewrite (IH Hg), Hc.
Qed.

Lemma rstrip_app_space (e g : string) :
  all_space g = true -> Py.rstrip (e ++ g) = Py.rstrip e.
Proof.
  intros Hg. induction e as [|c e IH]; [now apply rstrip_all_space|].
  cbn [append Py.rstrip]. now rewrite IH.
Qed.

Lemma strip_space (s : string) : Py.strip (String " " s) = Py.strip s.
Proof. reflexivity. Qed.

(** Trimming a text whose second line starts with a non-blank character and
    whose last part does not trim to nothing. *)
Lemma strip_frame (x m y : string) (c : ascii) :
  Py.isspace c = false -> Py.rstrip y <> "" ->
  Py.strip (x ++ String Py.nl (String c (m ++ y))) =
  (if all_space x then "" else Py.lstrip x ++ nl_str)
  ++ String c (m ++ Py.rstrip y).
Proof.
  intros Hc Hy. unfold Py.strip. rewrite lstrip_app.
  destruct (all_space x).
  - cbn [Py.lstrip]. change (Py.isspace Py.nl) with true. cbn iota.
    rewrite Hc. cbn [append].
    change (String c (m ++ y)) with (String c m ++ y).
    now rewrite rstrip_keep.
  - replace (Py.lstrip x ++ String Py.nl (String c (m ++ y)))
      with ((Py.lstrip x ++ String Py.nl (String c m)) ++ y)
      by (now norm_append).
    rewrite rstrip_keep by exact Hy. unfold nl_str. now norm_append.
Qed.

Lemma strip_body (b : block) :
  all_space (gap b) = true ->
  Py.strip (body b) = String.concat nl_str (trimmed_lines b).
Proof.
  intros Hgap.
  set (m := ")" ++ optA b ++ nl_str ++ "B)" ++ optB b ++ nl_str ++
            "C)" ++ optC b ++ nl_str ++ "D)" ++ optD b ++ nl_str ++
            "Correct Answer:" ++ ans b ++ nl_str).
  set (y := "Explanation:" ++ expl b ++ gap b).
  assert (Hbody : body b = String " " (scen b ++ String Py.nl (String "A" (m ++ y)))).
  { rewrite body_unfold. unfold m, y, nl_str. now norm_append. }
  rewrite Hbody, strip_space, strip_frame; [|reflexivity|].
  - unfold y. rewrite rstrip_explanation, rstrip_app_space by exact Hgap.
    unfold trimmed_lines, marked_lines, m, nl_str.
    destruct (all_space (scen b)); cbn [String.concat]; now norm_append.
  - unfold y. rewrite rstrip_explanation. discriminate.
Qed.

Lemma split_nl_concat (ls : list string) :
  ls <> [] -> forallb no_newline ls = true ->
  Py.split_nl (String.concat nl_str ls) = ls.
Proof.
  induction ls as [|x ls IH]; [congruence|]. intros _ H.
  cbn [forallb] in H. apply andb_prop in H as [Hx Hls].
  destruct ls as [|y ls]; [now apply split_nl_last|].
  change (String.concat nl_str (x :: y :: ls))
    with (x ++ String Py.nl (String.concat nl_str (y :: ls))).
  rewrite split_nl_line by exact Hx. f_equal. apply IH; [discriminate|exact Hls].
Qed.

Lemma trimmed_lines_no_newline (b : block) :
  well_formed_facts b -> forallb no_newline (trimmed_lines b) = true.
Proof.
  intros [_ _ Hs Ha Hb Hc Hd Hans Hexpl _ _ _].
  apply field_ok_facts in Hs as [Hs _], Ha as [Ha _], Hb as [Hb _],
    Hc as [Hc _], Hd as [Hd _], Hans as [Hans _], Hexpl as [Hexpl _].
  apply no_newline_lstrip in Hs. apply no_newline_rstrip in Hexpl.
  unfold trimmed_lines, marked_lines.
  destruct (all_space (scen b)); cbn [forallb append no_newline];
    rewrite ?Hs, ?Ha, ?Hb, ?Hc, ?Hd, ?Hans, ?Hexpl; reflexivity.
Qed.

Lemma trimmed_lines_nonempty (b : block) : trimmed_lines b <> [].
Proof. unfold trimmed_lines. destruct (all_space (scen b)); discriminate. Qed.

Lemma strip_body_length (b : block) :
  all_space (gap b) = true -> 20 <= String.length (Py.strip (body b)).
Proof.
  intros Hgap. rewrite strip_body by exact Hgap. unfold trimmed_lines, marked_lines, nl_str.
  destruct (all_space (scen b)); cbn [String.concat];
    repeat first [rewrite length_append | progress cbn [String.length append]];
    lia.
Qed.

(** ** The line loop on a well-formed block *)

Lemma step_option (sc os : list string) (a e : string) (p : pstate)
    (line : string) :
  labelled (Py.strip line) ->
  step_line (Locals sc os a e p) line =
  Locals sc (os ++ [Py.strip line]) a e Options.
Proof.
  intros H. apply option_label_labelled in H.
  unfold step_line. now rewrite H.
Qed.

Lemma strip_answer_line (t : string) :
  Py.strip ("Correct Answer:" ++ t) = "Correct Answer:" ++ Py.rstrip t.
Proof.
  change (Py.strip ("Correct Answer:" ++ t))
    with (Py.rstrip ("Correct Answer" ++ String ":" t)).
  rewrite rstrip_keep; rewrite rstrip_nonspace by reflexivity;
    [reflexivity | discriminate].
Qed.

Lemma strip_explanation_line (t : string) :
  Py.strip ("Explanation:" ++ t) = "Explanation:" ++ Py.rstrip t.
Proof.
  cbn [append]. rewrite strip_nonspace by reflexivity.
  now rewrite !rstrip_nonspace by reflexivity.
Qed.

Lemma startswith_app (p t : string) : Py.startswith (p ++ t) p = true.
Proof.
  unfold Py.startswith. induction p as [|c p IH]; [destruct t; reflexivity|].
  cbn [append String.prefix]. destruct (ascii_dec c c); [exact IH|congruence].
Qed.

Lemma step_answer (sc os : list string) (a e : string) (p : pstate)
    (t : string) :
  step_line (Locals sc os a e p) ("Correct Answer:" ++ t) =
  Locals sc os (answer_value ("Correct Answer:" ++ t)) e Answer.
Proof.
  unfold step_line, answer_value. rewrite strip_answer_line.
  replace (Re.matches option_label ("Correct Answer:" ++ Py.rstrip t))
    with false by reflexivity.
  rewrite startswith_app. reflexivity.
Qed.

Lemma step_explanation (sc os : list string) (a e : string) (p : pstate)
    (t : string) :
  step_line (Locals sc os a e p) ("Explanation:" ++ t) =
  Locals sc os a (explanation_value ("Explanation:" ++ t)) Explanation.
Proof.
  unfold step_line, explanation_value. rewrite strip_explanation_line.
  replace (Re.matches option_label ("Explanation:" ++ Py.rstrip t))
    with false by reflexivity.
  replace (Py.startswith ("Explanation:" ++ Py.rstrip t) "Correct Answer:")
    with false by reflexivity.
  rewrite startswith_app. reflexivity.
Qed.

Lemma step_plain (sc os : list string) (a e : string) (line : string) :
  plain_line line = true ->
  step_line (Locals sc os a e Scenario) line =
  Locals (sc ++ [Py.strip line]) os a e Scenario.
Proof.
  unfold plain_line, step_line. intros H.
  apply andb_prop in H as [H H3]. apply andb_prop in H as [H1 H2].
  apply negb_true_iff in H1, H2, H3. now rewrite H1, H2, H3.
Qed.

Lemma labelled_option_line (c : ascii) (t : string) :
  In c ["A"; "B"; "C"; "D"]%char ->
  labelled (Py.strip (String c (String ")" t))).
Proof.
  intros H. exists c, ")"%char, (Py.rstrip t). split; [|split].
  - simpl in H.
    destruct H as [<-|[<-|[<-|[<-|[]]]]];
      (rewrite strip_nonspace by reflexivity;
       now rewrite rstrip_nonspace by reflexivity).
  - exact H.
  - simpl. tauto.
Qed.

Lemma explanation_value_rstrip (t : string) :
  explanation_value ("Explanation:" ++ Py.rstrip t) =
  explanation_value ("Explanation:" ++ t).
Proof.
  unfold explanation_value.
  now rewrite !strip_explanation_line, rstrip_idem.
Qed.

Lemma run_marked_lines (b : block) (sc : list string) (p : pstate) :
  fold_left step_line (marked_lines b) (Locals sc [] "" "" p) =
  Locals sc (MCQ.options (expected b)) (MCQ.answer (expected b))
         (MCQ.explanation (expected b)) Explanation.
Proof.
  unfold marked_lines. cbn [fold_left].
  rewrite (step_option sc [] "" "" p ("A)" ++ optA b))
    by (apply labelled_option_line; simpl; tauto).
  rewrite (step_option sc _ "" "" Options ("B)" ++ optB b))
    by (apply labelled_option_line; simpl; tauto).
  rewrite (step_option sc _ "" "" Options ("C)" ++ optC b))
    by (apply labelled_option_line; simpl; tauto).
  rewrite (step_option sc _ "" "" Options ("D)" ++ optD b))
    by (apply labelled_option_line; simpl; tauto).
  rewrite step_answer, step_explanation, explanation_value_rstrip.
  reflexivity.
Qed.

Lemma run_trimmed_lines (b : block) :
  plain_line (scen b) = true ->
  emit (run_lines (trimmed_lines b)) =
  if Py.truthy (answer_value ("Correct Answer:" ++ ans b))
  then Some (expected b) else None.
Proof.
  intros Hplain. unfold run_lines, trimmed_lines, init_locals.
  destruct (all_space (scen b)) eqn:Esp.
  - rewrite run_marked_lines. unfold emit, expected.
    cbn [options answer scenario explanation MCQ.options MCQ.answer
         MCQ.explanation nonempty andb].
    rewrite (strip_all_space _ Esp). reflexivity.
  - cbn [fold_left]. rewrite step_plain.
    + rewrite run_marked_lines. unfold emit, expected.
      cbn [options answer scenario explanation MCQ.options MCQ.answer
           MCQ.explanation nonempty andb app].
      now rewrite strip_lstrip.
    + unfold plain_line in *. now rewrite strip_lstrip.
Qed.

(** A well-formed block yields the record expected for it. *)
Lemma parse_block_body (b : block) :
  well_formed_facts b -> parse_block (body b) = Some (expected b).
Proof.
  intros Hb. pose proof (wf_gap _ Hb) as Hgap.
  rewrite parse_block_long by now apply strip_body_length.
  unfold block_lines. rewrite strip_body by exact Hgap.
  rewrite split_nl_concat
    by (apply trimmed_lines_nonempty || now apply trimmed_lines_no_newline).
  rewrite run_trimmed_lines by apply (wf_plain _ Hb).
  pose proof (wf_answer _ Hb) as Ha. apply truthy_true in Ha.
  now rewrite Ha.
Qed.

(* ================================================================== *)
(** * N well-formed blocks give N records                              *)
(* ================================================================== *)

Lemma parse_bodies (bs : list block) :
  Forall well_formed_facts bs ->
  flat_map (fun s => option_list (parse_block s)) (map body bs) =
  map expected bs.
Proof.
  induction 1 as [|b bs Hb _ IH]; [reflexivity|].
  cbn [map flat_map]. now rewrite (parse_block_body b Hb), IH.
Qed.

Lemma well_formed_all (bs : list block) :
  forallb well_formed bs = true -> Forall well_formed_facts bs.
Proof.
  intros H. apply Forall_forall. intros b Hb.
  apply well_formed_facts_of. rewrite forallb_forall in H. now apply H.
Qed.

Lemma parse_render_blocks (bs : list block) :
  forallb well_formed bs = true ->
  parse_mcqs (render_blocks bs) = map expected bs.
Proof.
  intros H. apply well_formed_all in H.
  destruct bs as [|b bs]; [reflexivity|].
  rewrite parse_mcqs_flat_map, split_render_blocks by exact H.
  cbn [flat_map]. rewrite (parse_bodies (b :: bs) H). reflexivity.
Qed.

(** C1, as stated, fails: the scenario line of [gopalan_block] starts with
    [A.], so it is read as an option line, and the one record that is
    emitted has five options and an empty scenario. *)
Lemma well_formed_shape_not_enough :
  render_blocks [gopalan_block] =
"1. A. K. Gopalan is detained without trial.
A) Valid
B) Invalid
C) Unclear
D) None
Correct Answer: B
Explanation: Due process requires notice." /\
  parse_mcqs (render_blocks [gopalan_block]) =
  [ MCQ.Build ""
      ["A. K. Gopalan is detained without trial.";
       "A) Valid"; "B) Invalid"; "C) Unclear"; "D) None"]
      "B" "Due process requires notice." ] /\
  ~ Forall (fun q => List.length (MCQ.options q) = 4)
           (parse_mcqs (render_blocks [gopalan_block])).
Proof.
  split; [reflexivity|]. split; [vm_compute; reflexivity|].
  intros H. vm_compute in H. inversion H as [|q l Hq _]. discriminate Hq.
Qed.

(** The same shape with an option that cites an article: the delimiter cuts
    the block after [21.], and the record keeps three options. *)
Example citation_in_option :
  parse_mcqs
"1. A tenant is evicted without notice.
A) It violates Article 21.
B) Invalid
C) Unclear
D) None
Correct Answer: A
Explanation: Due process requires notice." =
  [ MCQ.Build "" ["B) Invalid"; "C) Unclear"; "D) None"] "A"
              "Due process requires notice." ].
Proof. vm_compute. reflexivity. Qed.

(** The same shape with nothing after the answer marker: no record. *)
Example empty_answer_value :
  parse_mcqs
"1. A tenant is evicted without notice.
A) Valid
B) Invalid
C) Unclear
D) None
Correct Answer:
Explanation: Due process requires notice." = [].
Proof. vm_compute. reflexivity. Qed.

(** C1, amended.  Let the raw output be N numbered blocks joined by
    newlines, each a marker of digits and a period, a space and the scenario
    line, four option lines starting with [A)], [B)], [C)], [D)], a line
    starting with [Correct Answer:] and a line starting with [Explanation:],
    possibly followed by blank space, such that no text of the block holds a digit followed by a period, the
    trimmed scenario line is not itself an option, answer or explanation
    line, and the answer value is not empty.  Then [parse_mcqs] returns
    exactly N records, in block order, the record of each block being its
    trimmed scenario, its four trimmed option lines, its answer value and
    its explanation value; each record has four options. *)
Theorem well_formed_blocks_parse (bs : list block) :
  forallb well_formed bs = true ->
  parse_mcqs (render_blocks bs) = map expected bs /\
  List.length (parse_mcqs (render_blocks bs)) = List.length bs /\
  Forall (fun q => List.length (MCQ.options q) = 4)
         (parse_mcqs (render_blocks bs)).
Proof.
  intros H. rewrite (parse_render_blocks bs H). split; [reflexivity|].
  split; [apply length_map|].
  apply Forall_forall. intros q Hq. apply in_map_iff in Hq as (b & <- & _).
  reflexivity.
Qed.

Lemma well_formed_blocks_parse_witness :
  forallb well_formed [tenant_block; arrest_block] = true /\
  parse_mcqs (render_blocks [tenant_block; arrest_block]) =
  [ MCQ.Build "A tenant is evicted without notice."
      ["A) Valid"; "B) Invalid"; "C) Unclear"; "D) None"]
      "B" "Due process requires notice.";
    MCQ.Build "An arrest is made without a memo of arrest."
      ["A) Lawful"; "B) Unlawful"; "C)"; "D) None"]
      "D" "" ].
Proof.
  assert (H : forallb well_formed [tenant_block; arrest_block] = true)
    by (vm_compute; reflexivity).
  split; [exact H|].
  destruct (well_formed_blocks_parse [tenant_block; arrest_block] H)
    as [Hp _].
  rewrite Hp. vm_compute. reflexivity.
Defined.

(* ================================================================== *)
(** * The export                                                       *)
(* ================================================================== *)

Lemma concat_empty_cons (x : string) (l : list string) :
  String.concat "" (x :: l) = x ++ String.concat "" l.
Proof. destruct l; simpl; [now rewrite append_nil_r | reflexivity]. Qed.

Lemma fold_write_options (opts : list string) (out : string) :
  fold_left (fun out opt => write out (opt ++ nl_str)) opts out =
  out ++ String.concat "" (map line opts).
Proof.
  revert out; induction opts as [|o opts IH]; intros out.
  - simpl. now rewrite append_nil_r.
  - cbn [fold_left map]. rewrite IH, concat_empty_cons.
    unfold write, line. now rewrite append_assoc.
Qed.

Lemma md_iter_render (out : string) (i : nat) (q : MCQ.t) :
  md_iter out (i, q) = out ++ render_record i q.
Proof.
  unfold md_iter, render_record. rewrite fold_write_options.
  unfold write, line. norm_append. reflexivity.
Qed.

Lemma fold_md_iter (l : list (nat * MCQ.t)) (out : string) :
  fold_left md_iter l out =
  out ++ String.concat "" (map (fun iq => render_record (fst iq) (snd iq)) l).
Proof.
  revert out; induction l as [|[i q] l IH]; intros out.
  - simpl. now rewrite append_nil_r.
  - cbn [fold_left map]. rewrite IH, concat_empty_cons, md_iter_render.
    now rewrite append_assoc.
Qed.

Lemma enumerate_fst {A} (xs : list A) (start : nat) :
  map fst (enumerate start xs) = seq start (List.length xs).
Proof.
  revert start; induction xs as [|x xs IH]; intros start; simpl;
    [reflexivity | now rewrite IH].
Qed.

Lemma enumerate_snd {A} (xs : list A) (start : nat) :
  map snd (enumerate start xs) = xs.
Proof.
  revert start; induction xs as [|x xs IH]; intros start; simpl;
    [reflexivity | now rewrite IH].
Qed.

(** ** Parsed records hold no newline *)

Lemma split_nl_one_line (s : string) :
  forallb no_newline (Py.split_nl s) = true.
Proof.
  induction s as [|c s IH]; [reflexivity|]. cbn [Py.split_nl].
  destruct (Ascii.eqb c Py.nl) eqn:E; [exact IH|].
  destruct (Py.split_nl s) as [|l ls]; cbn [Py.add_char forallb no_newline] in *;
    rewrite E; [reflexivity | exact IH].
Qed.

Lemma no_newline_strip (s : string) :
  no_newline s = true -> no_newline (Py.strip s) = true.
Proof. intros H. now apply no_newline_rstrip, no_newline_lstrip. Qed.

Lemma no_newline_remove_all (old s : string) (skip : nat) :
  no_newline s = true -> no_newline (Py.remove_all old s skip) = true.
Proof.
  revert skip; induction s as [|c s IH]; intros skip; [reflexivity|].
  cbn [no_newline Py.remove_all]. intros H. apply andb_prop in H as [Hc Hs].
  destruct skip; [|now apply IH].
  destruct (String.prefix old (String c s)); [now apply IH|].
  cbn [no_newline]. now rewrite Hc, IH.
Qed.

Lemma no_newline_app (x y : string) :
  no_newline (x ++ y) = no_newline x && no_newline y.
Proof.
  induction x as [|c x IH]; [reflexivity|]. cbn [append no_newline].
  now rewrite IH, andb_assoc.
Qed.

Lemma no_newline_join (ls : list string) :
  forallb no_newline ls = true -> no_newline (Py.join " " ls) = true.
Proof.
  induction ls as [|x ls IH]; [reflexivity|]. cbn [forallb]. intros H.
  apply andb_prop in H as [Hx Hls]. rewrite join_spaced.
  destruct ls as [|y ls]; [now rewrite append_nil_r|].
  specialize (IH Hls). rewrite join_spaced in IH. cbn [spaced].
  rewrite no_newline_app, Hx. exact IH.
Qed.

Lemma forallb_snoc {A} (f : A -> bool) (l : list A) (x : A) :
  forallb f (l ++ [x]) = forallb f l && f x.
Proof. rewrite forallb_app. cbn. now rewrite andb_true_r. Qed.

Lemma step_line_one_line (st : locals) (line : string) :
  no_newline line = true -> one_line_locals st = true ->
  one_line_locals (step_line st line) = true.
Proof.
  intros Hl Hst. unfold one_line_locals in *.
  apply andb_prop in Hst as [Hst He]. apply andb_prop in Hst as [Hst Ha].
  apply andb_prop in Hst as [Hs Ho].
  pose proof (no_newline_strip _ Hl) as Hstrip.
  assert (Hval : forall old,
            no_newline (Py.strip (Py.replace_with_empty (Py.strip line) old))
            = true).
  { intros old. apply no_newline_strip, no_newline_remove_all, Hstrip. }
  unfold step_line.
  repeat match goal with |- context [if ?b then _ else _] => destruct b end;
    cbn [scenario options answer explanation];
    rewrite ?forallb_snoc, ?Hval, ?Hs, ?Ho, ?Ha, ?He, ?Hstrip;
    reflexivity.
Qed.

Lemma run_lines_one_line (lines : list string) (st : locals) :
  forallb no_newline lines = true -> one_line_locals st = true ->
  one_line_locals (fold_left step_line lines st) = true.
Proof.
  revert st; induction lines as [|l lines IH]; intros st Hl Hst; [exact Hst|].
  cbn [forallb] in Hl. apply andb_prop in Hl as [Hl Hls].
  cbn [fold_left]. apply IH; [exact Hls | now apply step_line_one_line].
Qed.

Lemma parse_block_one_line (block : string) (q : MCQ.t) :
  parse_block block = Some q -> one_line q = true.
Proof.
  unfold parse_block. destruct (_ || _); [discriminate|].
  intros Hq. apply emit_record in Hq. subst q.
  pose proof (run_lines_one_line (Py.split_nl (Py.strip block)) init_locals
                (split_nl_one_line _) eq_refl) as H.
  unfold one_line_locals in H. unfold one_line, run_lines.
  cbn [MCQ.scenario MCQ.options MCQ.answer MCQ.explanation].
  apply andb_prop in H as [H He]. apply andb_prop in H as [H Ha].
  apply andb_prop in H as [Hs Ho].
  now rewrite (no_newline_join _ Hs), Ho, Ha, He.
Qed.

Lemma parse_mcqs_one_line (raw_output : string) :
  forallb one_line (parse_mcqs raw_output) = true.
Proof.
  rewrite parse_mcqs_flat_map.
  induction (Re.split block_delimiter raw_output) as [|b bs IH];
    [reflexivity|].
  cbn [flat_map]. rewrite forallb_app, IH, andb_true_r.
  destruct (parse_block b) as [q|] eqn:E; [|reflexivity].
  cbn. now rewrite (parse_block_one_line _ _ E).
Qed.

(** C9.  The export text is the concatenation, in record order and with
    indices counted from 1, of one rendering per record: a heading line with
    the index and the scenario, the option lines, the answer line, the
    explanation line and a blank line.  The texts of a parsed record hold no
    newline, so each of them is one line of the export.  The two download
    buttons, named [mcqs.md] and [mcqs.txt], carry this same text. *)
Theorem export_serialization (mcqs : list MCQ.t) :
  mcqs_to_md mcqs = render_all mcqs /\
  map fst (enumerate 1 mcqs) = seq 1 (List.length mcqs) /\
  map snd (enumerate 1 mcqs) = mcqs /\
  (forall raw_output, forallb one_line (parse_mcqs raw_output) = true) /\
  map dl_file_name (download_buttons mcqs) = ["mcqs.md"; "mcqs.txt"] /\
  map dl_data (download_buttons mcqs) = [mcqs_to_md mcqs; mcqs_to_md mcqs].
Proof.
  split; [|split; [|split; [|split; [|split]]]].
  - unfold mcqs_to_md, render_all. now rewrite fold_md_iter.
  - apply enumerate_fst.
  - apply enumerate_snd.
  - apply parse_mcqs_one_line.
  - reflexivity.
  - reflexivity.
Qed.

Example export_example :
  mcqs_to_md (parse_mcqs example_raw) =
"### Q1: A tenant is evicted without notice.
A) Valid
B) Invalid
C) Unclear
D) None
**Correct Answer:** B
**Explanation:** Due process requires notice.

".
Proof. vm_compute. reflexivity. Qed.

(* ================================================================== *)
(** * What every parsed record satisfies                               *)
(* ================================================================== *)

Lemma in_parse_mcqs (raw_output : string) (q : MCQ.t) :
  In q (parse_mcqs raw_output) ->
  exists block, In block (Re.split block_delimiter raw_output) /\
                parse_block block = Some q.
Proof.
  rewrite parse_mcqs_flat_map. intros H. apply in_flat_map in H as (b & Hb & Hq).
  exists b. split; [exact Hb|].
  destruct (parse_block b) as [q'|]; simpl in Hq; [|contradiction].
  destruct Hq as [->|[]]. reflexivity.
Qed.

Lemma parse_block_emit (block : string) (q : MCQ.t) :
  parse_block block = Some q -> emit (run_lines (block_lines block)) = Some q.
Proof. unfold parse_block, block_lines. now destruct (_ || _). Qed.

Lemma step_line_first_labelled (st : locals) (line : string) :
  first_labelled st -> first_labelled (step_line st line).
Proof.
  unfold first_labelled, step_line. intros H.
  destruct (Re.matches option_label (Py.strip line)) eqn:E.
  - apply option_label_labelled in E. cbn [options state].
    destruct (options st); [exact E | exact H].
  - destruct (Py.startswith _ "Correct Answer:");
      [cbn [options state]; destruct (options st); [discriminate | exact H]|].
    destruct (Py.startswith _ "Explanation:");
      [cbn [options state]; destruct (options st); [discriminate | exact H]|].
    destruct (state st) eqn:Es; cbn [is_scenario is_options options state];
      rewrite ?Es; try exact H.
    destruct (options st); [congruence | exact H].
Qed.

Lemma run_lines_first_labelled (lines : list string) (st : locals) :
  first_labelled st -> first_labelled (fold_left step_line lines st).
Proof.
  revert st; induction lines as [|l lines IH]; intros st H; [exact H|].
  cbn [fold_left]. apply IH. now apply step_line_first_labelled.
Qed.

(** X1.  Every record [parse_mcqs] returns has a non-empty answer and at
    least one option, and its first option starts with a letter from A to D
    followed by [)] or [.]. *)
Theorem parsed_record_has_labelled_option (raw_output : string) (q : MCQ.t) :
  In q (parse_mcqs raw_output) ->
  MCQ.answer q <> "" /\
  exists o rest, MCQ.options q = o :: rest /\ labelled o.
Proof.
  intros H. apply in_parse_mcqs in H as (block & _ & Hq).
  apply parse_block_emit in Hq.
  assert (Hne : emit (run_lines (block_lines block)) <> None) by congruence.
  apply emit_some in Hne as [Ho Ha]. apply emit_record in Hq. subst q.
  cbn [MCQ.answer MCQ.options]. split; [exact Ha|].
  pose proof (run_lines_first_labelled (block_lines block) init_locals) as Hf.
  unfold first_labelled, run_lines in *.
  destruct (options (fold_left step_line (block_lines block) init_locals))
    as [|o rest]; [congruence|].
  exists o, rest. split; [reflexivity|]. apply Hf. discriminate.
Qed.

Lemma parsed_record_has_labelled_option_witness :
  In (MCQ.Build "" ["A)"; "text"] "B" "")
     (parse_mcqs "A)
text
Correct Answer: B") /\
  MCQ.answer (MCQ.Build "" ["A)"; "text"] "B" "") <> "".
Proof.
  assert (H : In (MCQ.Build "" ["A)"; "text"] "B" "")
                 (parse_mcqs "A)
text
Correct Answer: B")) by (vm_compute; left; reflexivity).
  split; [exact H|].
  exact (proj1 (parsed_record_has_labelled_option _ _ H)).
Defined.

(** ** Trimmed texts *)

Lemma lstrip_rstrip_lstrip (s : string) :
  Py.lstrip (Py.rstrip (Py.lstrip s)) = Py.rstrip (Py.lstrip s).
Proof.
  induction s as [|c s IH]; [reflexivity|]. cbn [Py.lstrip].
  destruct (Py.isspace c) eqn:E; [exact IH|].
  rewrite rstrip_nonspace by exact E. cbn [Py.lstrip]. now rewrite E.
Qed.

Lemma strip_idem (s : string) : Py.strip (Py.strip s) = Py.strip s.
Proof. unfold Py.strip. now rewrite lstrip_rstrip_lstrip, rstrip_idem. Qed.

Lemma step_line_trimmed (st : locals) (line : string) :
  trimmed_locals st -> trimmed_locals (step_line st line).
Proof.
  unfold trimmed_locals, step_line. intros (Ho & Ha & He).
  assert (Hsnoc : Forall (fun o => Py.strip o = o)
                         (options st ++ [Py.strip line])).
  { apply Forall_app. split; [exact Ho|]. constructor; [apply strip_idem|].
    constructor. }
  repeat match goal with |- context [if ?b then _ else _] => destruct b end;
    cbn [options answer explanation]; repeat split;
    auto using strip_idem.
Qed.

Lemma run_lines_trimmed (lines : list string) (st : locals) :
  trimmed_locals st -> trimmed_locals (fold_left step_line lines st).
Proof.
  revert st; induction lines as [|l lines IH]; intros st H; [exact H|].
  cbn [fold_left]. apply IH. now apply step_line_trimmed.
Qed.

(** X2.  In every record [parse_mcqs] returns, each option, the answer and
    the explanation carry no leading or trailing whitespace: trimming them
    again changes nothing. *)
Theorem parsed_record_trimmed (raw_output : string) (q : MCQ.t) :
  In q (parse_mcqs raw_output) ->
  Forall (fun o => Py.strip o = o) (MCQ.options q) /\
  Py.strip (MCQ.answer q) = MCQ.answer q /\
  Py.strip (MCQ.explanation q) = MCQ.explanation q.
Proof.
  intros H. apply in_parse_mcqs in H as (block & _ & Hq).
  apply parse_block_emit, emit_record in Hq. subst q.
  cbn [MCQ.options MCQ.answer MCQ.explanation].
  apply (run_lines_trimmed (block_lines block) init_locals).
  repeat split; constructor.
Qed.

Lemma parsed_record_trimmed_witness :
  In (MCQ.Build "s" ["A) Valid"] "B" "none")
     (parse_mcqs "  s
  A) Valid
 Correct Answer:   B
Explanation:  none  ") /\
  Py.strip "B" = "B".
Proof.
  assert (H : In (MCQ.Build "s" ["A) Valid"] "B" "none")
     (parse_mcqs "  s
  A) Valid
 Correct Answer:   B
Explanation:  none  ")) by (vm_compute; left; reflexivity).
  split; [exact H|].
  exact (proj1 (proj2 (parsed_record_trimmed _ _ H))).
Defined.

(* ================================================================== *)
(** * Lines without a marker, and the order of the states              *)
(* ================================================================== *)

Lemma step_plain_scenario (st : locals) (line : string) :
  plain_line line = true -> state st = Scenario ->
  step_line st line = with_scenario st (scenario st ++ [Py.strip line]).
Proof.
  intros Hp Hs. destruct st as [sc os a e p]. cbn in Hs. subst p.
  now rewrite step_plain.
Qed.

Lemma step_plain_other (st : locals) (line : string) :
  plain_line line = true ->
  step_line st line =
  match state st with
  | Scenario => with_scenario st (scenario st ++ [Py.strip line])
  | Options => with_options st (options st ++ [Py.strip line])
  | _ => st
  end.
Proof.
  intros Hp. destruct (state st) eqn:Es; [now apply step_plain_scenario| | |];
    unfold plain_line in Hp;
    apply andb_prop in Hp as [Hp H3]; apply andb_prop in Hp as [H1 H2];
    apply negb_true_iff in H1, H2, H3;
    unfold step_line; rewrite H1, H2, H3, Es; cbn [is_scenario is_options];
    try reflexivity.
  unfold with_options. now rewrite Es.
Qed.

(** X3.  A run of lines that carry no option label and no answer or
    explanation marker goes where the state says: in state [Scenario] the
    trimmed lines join the scenario, in state [Options] each trimmed line
    becomes one more entry of the options, and in states [Answer] and
    [Explanation] the lines are dropped and nothing changes. *)
Theorem plain_lines_by_state (lines : list string) (st : locals) :
  forallb plain_line lines = true ->
  fold_left step_line lines st =
  match state st with
  | Scenario => with_scenario st (scenario st ++ map Py.strip lines)
  | Options => with_options st (options st ++ map Py.strip lines)
  | _ => st
  end.
Proof.
  revert st; induction lines as [|l lines IH]; intros st H.
  - destruct st as [sc os a e []]; unfold with_scenario, with_options;
      cbn; now rewrite ?app_nil_r.
  - cbn [forallb] in H. apply andb_prop in H as [Hl Hls].
    cbn [fold_left map]. rewrite (step_plain_other st l Hl), (IH _ Hls).
    destruct st as [sc os a e []]; unfold with_scenario, with_options;
      cbn; now rewrite <- ?app_assoc.
Qed.

Lemma plain_lines_by_state_witness :
  forallb plain_line [" continued "; "more"] = true /\
  fold_left step_line [" continued "; "more"]
            (Locals ["s"] ["A) x"] "B" "" Answer) =
  Locals ["s"] ["A) x"] "B" "" Answer /\
  fold_left step_line [" continued "; "more"]
            (Locals ["s"] ["A) x"] "" "" Options) =
  Locals ["s"] ["A) x"; "continued"; "more"] "" "" Options.
Proof.
  assert (H : forallb plain_line [" continued "; "more"] = true)
    by reflexivity.
  split; [exact H|]. split.
  - exact (plain_lines_by_state _ (Locals ["s"] ["A) x"] "B" "" Answer) H).
  - exact (plain_lines_by_state _ (Locals ["s"] ["A) x"] "" "" Options) H).
Defined.

Lemma step_line_scenario_closed (st : locals) (line : string) :
  state st <> Scenario ->
  scenario (step_line st line) = scenario st /\
  state (step_line st line) <> Scenario.
Proof.
  intros Hs. unfold step_line.
  destruct (state st) eqn:Es; [congruence| | |];
    cbn [is_scenario is_options];
    repeat match goal with |- context [if ?b then _ else _] => destruct b end;
    cbn [scenario state]; rewrite ?Es; split; congruence.
Qed.

(** X4.  Once the state has left [Scenario] it never comes back, and the
    scenario is closed: whatever lines follow, none is added to it. *)
Theorem scenario_closed (lines : list string) (st : locals) :
  state st <> Scenario ->
  scenario (fold_left step_line lines st) = scenario st /\
  state (fold_left step_line lines st) <> Scenario.
Proof.
  revert st; induction lines as [|l lines IH]; intros st Hs;
    [split; [reflexivity | exact Hs]|].
  cbn [fold_left].
  destruct (step_line_scenario_closed st l Hs) as [H1 H2].
  destruct (IH _ H2) as [H3 H4]. split; [congruence | exact H4].
Qed.

Lemma scenario_closed_witness :
  state (Locals ["s"] ["A) x"] "" "" Options) <> Scenario /\
  scenario (fold_left step_line ["text"; "Correct Answer: A"; "late text"]
              (Locals ["s"] ["A) x"] "" "" Options)) = ["s"].
Proof.
  assert (H : state (Locals ["s"] ["A) x"] "" "" Options) <> Scenario)
    by discriminate.
  split; [exact H|].
  exact (proj1 (scenario_closed ["text"; "Correct Answer: A"; "late text"]
                  (Locals ["s"] ["A) x"] "" "" Options) H)).
Defined.

(** X5.  When a block has several lines that start with [Correct Answer:],
    the last one gives the answer: a line ["Correct Answer:" ++ t] followed
    only by lines that do not start with the marker sets the answer to its
    own value, whatever came before. *)
Theorem last_answer_line_wins (before after : list string) (t : string) :
  (forall l, In l after ->
             Py.startswith (Py.strip l) "Correct Answer:" = false) ->
  answer (run_lines (before ++ ("Correct Answer:" ++ t) :: after)) =
  answer_value ("Correct Answer:" ++ t).
Proof.
  intros H. unfold run_lines. rewrite fold_left_app. cbn [fold_left].
  rewrite (answer_without_marker after _ H).
  destruct (fold_left step_line before init_locals) as [sc os a e p].
  now rewrite step_answer.
Qed.

Lemma last_answer_line_wins_witness :
  (forall l, In l ["Explanation: e"] ->
             Py.startswith (Py.strip l) "Correct Answer:" = false) /\
  answer (run_lines (["A) x"; "Correct Answer: A"] ++
                     ("Correct Answer:" ++ " B") :: ["Explanation: e"])) = "B".
Proof.
  assert (H : forall l, In l ["Explanation: e"] ->
              Py.startswith (Py.strip l) "Correct Answer:" = false).
  { intros l [<-|[]]. reflexivity. }
  split; [exact H|].
  exact (last_answer_line_wins ["A) x"; "Correct Answer: A"]
           ["Explanation: e"] " B" H).
Defined.

(* ================================================================== *)
(** * Raw output without numbered markers, and emphasised markers      *)
(* ================================================================== *)

(** X6.  A raw output in which no digit is followed by a period is not
    split at all: it is one block, and [parse_mcqs] returns what that one
    block yields, which may be a record. *)
Theorem unnumbered_output_is_one_block (raw_output : string) :
  has_digit_period raw_output = false ->
  Re.split block_delimiter raw_output = [raw_output] /\
  parse_mcqs raw_output = option_list (parse_block raw_output).
Proof.
  intros H.
  assert (Hs : Re.split block_delimiter raw_output = [raw_output]).
  { unfold Re.split. rewrite <- (append_nil_r raw_output) at 1.
    rewrite split_go_free by (exact H || reflexivity).
    cbn. now rewrite append_nil_r. }
  split; [exact Hs|].
  rewrite parse_mcqs_flat_map, Hs. cbn. now rewrite app_nil_r.
Qed.

Lemma unnumbered_output_is_one_block_witness :
  has_digit_period "Preamble only
A) Valid
Correct Answer: A" = false /\
  parse_mcqs "Preamble only
A) Valid
Correct Answer: A" = [MCQ.Build "Preamble only" ["A) Valid"] "A" ""].
Proof.
  assert (H : has_digit_period "Preamble only
A) Valid
Correct Answer: A" = false) by reflexivity.
  split; [exact H|].
  destruct (unnumbered_output_is_one_block _ H) as [_ Hp].
  rewrite Hp. reflexivity.
Defined.

Lemma opening_marker (o num u : string) :
  In o [""; "*"; "**"; String Py.nl ""; String Py.nl "*"; String Py.nl "**"] ->
  all_digits num = true -> num <> "" ->
  opening (o ++ num ++ u) = num ++ u.
Proof.
  intros Ho Hd Hne. destruct num as [|d num]; [congruence|].
  cbn [all_digits] in Hd. apply andb_prop in Hd as [Hd _].
  destruct (isdigit_not_opening d Hd) as [H1 H2].
  unfold opening. simpl in Ho.
  repeat (destruct Ho as [<-|Ho];
          [cbn [append];
           do 4 (cbn [skip1]; rewrite ?H1, ?H2, ?Ascii.eqb_refl);
           try reflexivity;
           change (Ascii.eqb "*" Py.nl) with false; cbn iota;
           do 4 (cbn [skip1]; rewrite ?H1, ?H2, ?Ascii.eqb_refl);
           reflexivity|]).
  destruct Ho.
Qed.

Lemma closing_marker (c rest : string) :
  In c [""; "*"; "**"; String Py.nl ""; String "*" (String Py.nl "");
        String "*" (String "*" (String Py.nl ""))] ->
  plain_start rest = true ->
  closing (c ++ rest) = rest.
Proof.
  intros Hc Hr.
  assert (H0 : closing rest = rest).
  { destruct rest as [|x rest]; [reflexivity|]. cbn [plain_start] in Hr.
    apply andb_prop in Hr as [Hx1 Hx2]. apply negb_true_iff in Hx1, Hx2.
    unfold closing. cbn [skip1]. rewrite Hx1. cbn [skip1]. rewrite Hx1.
    cbn [skip1]. now rewrite Hx2. }
  assert (H1 : skip1 Py.nl (skip1 "*" rest) = rest).
  { destruct rest as [|x rest]; [reflexivity|]. cbn [plain_start] in Hr.
    apply andb_prop in Hr as [Hx1 Hx2]. apply negb_true_iff in Hx1, Hx2.
    cbn [skip1]. rewrite Hx1. cbn [skip1]. now rewrite Hx2. }
  assert (H2 : skip1 Py.nl rest = rest).
  { destruct rest as [|x rest]; [reflexivity|]. cbn [plain_start] in Hr.
    apply andb_prop in Hr as [Hx1 Hx2]. apply negb_true_iff in Hx2.
    cbn [skip1]. now rewrite Hx2. }
  simpl in Hc. unfold closing.
  destruct Hc as [<-|[<-|[<-|[<-|[<-|[<-|[]]]]]]]; cbn [append].
  - exact H0.
  - change (skip1 "*" (String "*" rest)) with rest. exact H1.
  - change (skip1 "*" (skip1 "*" (String "*" (String "*" rest)))) with rest.
    exact H2.
  - change (skip1 "*" (skip1 "*" (String Py.nl rest))) with (String Py.nl rest).
    cbn [skip1]. now rewrite Ascii.eqb_refl.
  - change (skip1 "*" (String "*" (String Py.nl rest)))
      with (String Py.nl rest).
    change (skip1 "*" (String Py.nl rest)) with (String Py.nl rest).
    cbn [skip1]. now rewrite Ascii.eqb_refl.
  - change (skip1 "*" (skip1 "*" (String "*" (String "*" (String Py.nl rest)))))
      with (String Py.nl rest).
    cbn [skip1]. now rewrite Ascii.eqb_refl.
Qed.

(** X7.  A marker is taken out whole with its emphasis: digits and a period,
    preceded by an optional newline and up to two asterisks and followed by
    up to two asterisks and an optional newline, is one delimiter.  At the
    head of the raw output it leaves an empty first block and the split goes
    on with the text after it. *)
Theorem marker_with_emphasis (o c num rest : string) :
  In o [""; "*"; "**"; String Py.nl ""; String Py.nl "*"; String Py.nl "**"] ->
  In c [""; "*"; "**"; String Py.nl ""; String "*" (String Py.nl "");
        String "*" (String "*" (String Py.nl ""))] ->
  all_digits num = true -> num <> "" ->
  plain_start rest = true ->
  Re.match_here block_delimiter (o ++ num ++ "." ++ c ++ rest) = Some rest /\
  Re.split block_delimiter (o ++ num ++ "." ++ c ++ rest) =
  "" :: Re.split block_delimiter rest.
Proof.
  intros Ho Hc Hd Hne Hr.
  assert (Hm : Re.match_here block_delimiter (o ++ num ++ "." ++ c ++ rest)
               = Some rest).
  { rewrite match_block_delimiter, (opening_marker o num _ Ho Hd Hne).
    cbn [append]. rewrite digit_run_digits by assumption.
    cbn [option_map]. now rewrite closing_marker. }
  split; [exact Hm|].
  unfold Re.split.
  replace (o ++ num ++ "." ++ c ++ rest) with ((o ++ num ++ "." ++ c) ++ rest)
    in * by (now rewrite !append_assoc).
  apply split_go_match; [|exact Hm].
  destruct o; [destruct num; [congruence|discriminate]|discriminate].
Qed.

Lemma marker_with_emphasis_witness :
  all_digits "12" = true /\
  plain_start "A tenant is evicted." = true /\
  Re.split block_delimiter "**12.**
A tenant is evicted." = "" :: Re.split block_delimiter "A tenant is evicted.".
Proof.
  assert (Ho : In "**" [""; "*"; "**"; String Py.nl ""; String Py.nl "*";
                        String Py.nl "**"]) by (simpl; tauto).
  assert (Hc : In (String "*" (String "*" (String Py.nl "")))
                  [""; "*"; "**"; String Py.nl "";
                   String "*" (String Py.nl "");
                   String "*" (String "*" (String Py.nl ""))])
    by (simpl; tauto).
  assert (Hd : all_digits "12" = true) by reflexivity.
  assert (Hne : "12" <> "") by discriminate.
  assert (Hr : plain_start "A tenant is evicted." = true) by reflexivity.
  split; [exact Hd|]. split; [exact Hr|].
  exact (proj2 (marker_with_emphasis _ _ _ _ Ho Hc Hd Hne Hr)).
Defined.

(* ================================================================== *)
(** * More on the text normaliser                                      *)
(* ================================================================== *)

Lemma words_aux_nospace_app (a r : string) :
  nospace a = true ->
  Py.words_aux (a ++ r) =
  (a ++ fst (Py.words_aux r), snd (Py.words_aux r)).
Proof.
  induction a as [|c a IH]; cbn [append nospace].
  - intros _. now destruct (Py.words_aux r).
  - intros H. apply andb_prop in H as [Hc Ha]. apply negb_true_iff in Hc.
    cbn [Py.words_aux]. rewrite (IH Ha), Hc. reflexivity.
Qed.

Lemma words_aux_spaced (ws : list string) :
  forallb good_word ws = true -> Py.words_aux (spaced ws) = ("", ws).
Proof.
  induction ws as [|w ws IH]; [reflexivity|]. cbn [forallb spaced].
  intros H. apply andb_prop in H as [Hw Hws].
  unfold good_word in Hw. apply andb_prop in Hw as [Hne Hns].
  cbn [Py.words_aux]. rewrite (words_aux_nospace_app _ _ Hns), (IH Hws).
  cbn [fst snd]. rewrite append_nil_r.
  change (Py.isspace " ") with true. cbn iota.
  destruct w; [discriminate | reflexivity].
Qed.

(** X8.  Cleaning keeps the words: the text and the cleaned text split into
    the same sequence of words. *)
Theorem clean_text_keeps_words (s : string) :
  Py.split_ws (clean_text s) = Py.split_ws s.
Proof.
  rewrite clean_text_words. unfold Py.split_ws at 2.
  destruct (words_aux_good s) as [Ha Hw].
  destruct (Py.words_aux s) as [a ws]. cbn [fst snd] in Ha, Hw.
  unfold Py.split_ws.
  destruct a as [|c a].
  - destruct ws as [|w ws]; [reflexivity|].
    cbn [forallb] in Hw. apply andb_prop in Hw as [Hw Hws].
    unfold good_word in Hw. apply andb_prop in Hw as [Hne Hns].
    rewrite (words_aux_nospace_app _ _ Hns), (words_aux_spaced _ Hws).
    cbn [fst snd]. rewrite append_nil_r.
    destruct w; [discriminate | reflexivity].
  - rewrite (words_aux_nospace_app _ _ Ha), (words_aux_spaced _ Hw).
    cbn [fst snd]. now rewrite append_nil_r.
Qed.

Lemma split_ws_nil_iff (s : string) :
  Py.split_ws s = [] <-> all_space s = true.
Proof.
  unfold Py.split_ws. induction s as [|c s IH]; [split; reflexivity|].
  cbn [Py.words_aux all_space]. destruct (Py.words_aux s) as [a ws].
  destruct (Py.isspace c); cbn [andb Py.push_word].
  - exact IH.
  - split; discriminate.
Qed.

Lemma clean_text_empty_iff (s : string) :
  clean_text s = "" <-> all_space s = true.
Proof.
  rewrite <- split_ws_nil_iff. unfold clean_text.
  destruct (words_aux_good s) as [Ha Hw]. unfold Py.split_ws.
  destruct (Py.words_aux s) as [a ws]. cbn [fst snd] in Ha, Hw.
  destruct a as [|c a]; cbn [Py.push_word].
  - destruct ws as [|w ws]; [split; reflexivity|].
    rewrite join_spaced. cbn [forallb] in Hw.
    apply andb_prop in Hw as [Hw _]. unfold good_word in Hw.
    apply andb_prop in Hw as [Hne _].
    destruct w; [discriminate|]. split; discriminate.
  - rewrite join_spaced. split; discriminate.
Qed.

(** X9.  The cleaned text is never longer than the text; it is empty
    exactly when the text is empty or all whitespace; and in it every
    whitespace character is a single space standing between two
    non-whitespace characters: it does not start or end with whitespace and
    holds no newline, tab or double space. *)
Theorem clean_text_shape (s : string) :
  String.length (clean_text s) <= String.length s /\
  (clean_text s = "" <-> all_space s = true) /\
  clean (clean_text s) = true /\
  ends_with_space (clean_text s) = false /\
  no_newline (clean_text s) = true.
Proof.
  pose proof (clean_text_clean s) as Hc.
  split; [apply clean_text_length|]. split; [apply clean_text_empty_iff|].
  split; [exact Hc|]. unfold clean in Hc. apply andb_prop in Hc as [Ht _].
  split; [now apply tight_no_trailing_space|].
  revert Ht. generalize (clean_text s). intros t.
  induction t as [|c t IH]; [reflexivity|]. cbn [tight no_newline].
  intros H. apply andb_prop in H as [Hc Ht]. rewrite (IH Ht), andb_true_r.
  destruct (Ascii.eqb_spec c Py.nl) as [->|]; [|reflexivity].
  cbn in Hc. discriminate.
Qed.

Lemma normalize_length (s : string) :
  (Z.of_nat (String.length (normalize s)) <= MAX_TOKENS)%Z.
Proof.
  unfold normalize. apply truncate_text_within_budget_aux. discriminate.
Qed.

(** X10.  The normaliser never returns more than 15000 characters, and it
    settles after two passes at most: the result of the second pass is
    returned unchanged by every further pass. *)
Theorem normalize_settles (s : string) :
  (Z.of_nat (String.length (normalize s)) <= MAX_TOKENS)%Z /\
  normalize (normalize (normalize s)) = normalize (normalize s).
Proof.
  split; [apply normalize_length|].
  assert (H2 : normalize (normalize s) = clean_text (normalize s)).
  { unfold normalize at 1.
    apply truncate_text_within_budget_aux.
    pose proof (clean_text_length (normalize s)).
    pose proof (normalize_length s). lia. }
  rewrite H2 at 1. unfold normalize at 1.
  rewrite (clean_text_fixed (clean_text (normalize s)))
    by apply clean_text_clean.
  reflexivity.
Qed.

(** ** Truncation with any budget *)

Lemma take_prefix (n : nat) (s : string) :
  exists rest, s = take n s ++ rest.
Proof.
  unfold take. revert s; induction n as [|n IH]; intros [|c s].
  - now exists "".
  - now exists (String c s).
  - now exists "".
  - destruct (IH s) as [rest Hr]. exists rest. cbn [String.substring append].
    now rewrite <- Hr.
Qed.

(** X11.  For every budget, negative ones included, [truncate_text] returns
    a prefix of the text.  A non-negative budget [m] keeps [min m len]
    characters; a negative budget [m] counts from the end and keeps
    [max (len + m) 0] characters, so [-1] drops the last character. *)
Theorem truncate_text_any_budget (text : string) (max_chars : Z) :
  (exists rest, text = truncate_text text max_chars ++ rest) /\
  Z.of_nat (String.length (truncate_text text max_chars)) =
  (if (max_chars <? 0)%Z
   then Z.max (Z.of_nat (String.length text) + max_chars) 0
   else Z.min max_chars (Z.of_nat (String.length text))).
Proof.
  unfold truncate_text, Py.slice_to. split; [apply take_prefix|].
  rewrite substring_0_length.
  destruct (Z.ltb_spec max_chars 0); lia.
Qed.

Example truncate_text_negative :
  truncate_text "hello" (-1) = "hell" /\ truncate_text "hello" (-9) = "".
Proof. split; reflexivity. Qed.

Lemma take_take_min (a b : nat) (s : string) :
  take b (take a s) = take (Nat.min a b) s.
Proof.
  unfold take. revert b s; induction a as [|a IH]; intros [|b] [|c s];
    try reflexivity.
  cbn [String.substring Nat.min]. now rewrite IH.
Qed.

(** X12.  Truncating twice with non-negative budgets is truncating once
    with the smaller one. *)
Theorem truncate_text_twice (text : string) (a b : Z) :
  (0 <= a)%Z -> (0 <= b)%Z ->
  truncate_text (truncate_text text a) b = truncate_text text (Z.min a b).
Proof.
  intros Ha Hb.
  rewrite !truncate_text_take by lia. rewrite take_take_min.
  f_equal. lia.
Qed.

Lemma truncate_text_twice_witness :
  (0 <= 7)%Z /\ (0 <= 3)%Z /\
  truncate_text (truncate_text "normalise" 7) 3 = truncate_text "normalise" 3.
Proof.
  split; [lia|]. split; [lia|].
  apply (truncate_text_twice "normalise" 7 3); lia.
Defined.

(* ================================================================== *)
(** * Extraction                                                       *)
(* ================================================================== *)

Lemma read_pages_texts {exn : Type} (ts : list (option string))
    (text : string) :
  read_pages (exn := exn) text (map PageText ts) =
  (text ++ String.concat "" (map or_empty ts), None).
Proof.
  revert text; induction ts as [|t ts IH]; intros text.
  - cbn. now rewrite append_nil_r.
  - cbn [map read_pages]. rewrite IH, concat_empty_cons.
    now rewrite append_assoc.
Qed.

Lemma read_pages_raise {exn : Type} (ts : list (option string)) (e : exn)
    (rest : list (page_read exn)) (text : string) :
  read_pages text (map PageText ts ++ PageRaises e :: rest) =
  (text ++ String.concat "" (map or_empty ts), Some e).
Proof.
  revert text; induction ts as [|t ts IH]; intros text.
  - cbn. now rewrite append_nil_r.
  - cbn [map app read_pages]. rewrite IH, concat_empty_cons.
    now rewrite append_assoc.
Qed.

Lemma read_pages_failure {exn : Type} (ps : list (page_read exn))
    (text : string) :
  snd (read_pages text ps) = snd (read_pages "" ps).
Proof.
  revert text. generalize "". induction ps as [|[t|e] ps IH];
    intros t0 text; [reflexivity| |reflexivity].
  cbn [read_pages]. apply IH.
Qed.

Lemma read_document_failure {exn : Type} (d : document exn) (text : string) :
  snd (read_document text d) = failure d.
Proof.
  unfold failure. destruct d as [e|ps]; [reflexivity|].
  apply read_pages_failure.
Qed.

Lemma all_empty_concat (ts : list (option string)) :
  (forall t, In t ts -> or_empty t = "") ->
  String.concat "" (map or_empty ts) = "".
Proof.
  induction ts as [|t ts IH]; [reflexivity|]. intros H.
  cbn [map]. rewrite concat_empty_cons, (H t) by now left.
  apply IH. intros t' Ht'. apply H. now right.
Qed.

Lemma extract_primary_aux (exn : Type) (ts : list (option string))
    (second : document exn) :
  extract_text_from_pdf (Pdf (Pages (map PageText ts)) second) =
    Return (String.concat "" (map or_empty ts)) /\
  ((forall t, In t ts -> or_empty t = "") ->
   extract_text_from_pdf (Pdf (Pages (map PageText ts)) second) = Return "").
Proof.
  assert (H : extract_text_from_pdf (Pdf (Pages (map PageText ts)) second) =
              Return (String.concat "" (map or_empty ts))).
  { unfold extract_text_from_pdf. cbn [plumber read_document].
    now rewrite read_pages_texts. }
  split; [exact H|]. intros Hall. now rewrite H, all_empty_concat.
Qed.

(** X13.  When [pdfplumber] reads every page, the result is the page texts
    in page order, a page without text counting as the empty text; the
    second library plays no part.  In particular a file none of whose pages
    has text gives the empty text, and no error. *)
Theorem extract_primary (exn : Type) (ts : list (option string))
    (second : document exn) :
  extract_text_from_pdf (Pdf (Pages (map PageText ts)) second) =
    Return (String.concat "" (map or_empty ts)) /\
  ((forall t, In t ts -> or_empty t = "") ->
   extract_text_from_pdf (Pdf (Pages (map PageText ts)) second) = Return "").
Proof. apply extract_primary_aux. Qed.

Lemma extract_primary_witness :
  (forall t, In t [None; Some ""; None] -> or_empty t = "") /\
  extract_text_from_pdf
    (Pdf (Pages (map PageText [None; Some ""; None])) (OpenRaises tt)) =
  Return "".
Proof.
  assert (H : forall t, In t [None; Some ""; None] -> or_empty t = "").
  { intros t [<-|[<-|[<-|[]]]]; reflexivity. }
  split; [exact H|].
  exact (proj2 (extract_primary unit [None; Some ""; None] (OpenRaises tt)) H).
Defined.

(** X14.  When [pdfplumber] raises after some pages, the text it had
    collected is not discarded: the fallback appends the text of the whole
    document to it, so the pages read before the failure appear twice when
    both libraries read them alike. *)
Theorem extract_fallback_keeps_text (exn : Type)
    (ts us : list (option string)) (e : exn) (rest : list (page_read exn)) :
  extract_text_from_pdf
    (Pdf (Pages (map PageText ts ++ PageRaises e :: rest))
         (Pages (map PageText us))) =
  Return (String.concat "" (map or_empty ts)
          ++ String.concat "" (map or_empty us)).
Proof.
  unfold extract_text_from_pdf. cbn [plumber pypdf2 read_document].
  now rewrite read_pages_raise, read_pages_texts.
Qed.

Example extract_fallback_duplicates :
  extract_text_from_pdf
    (Pdf (Pages [PageText (Some "page one. "); PageRaises tt])
         (Pages [PageText (Some "page one. "); PageText (Some "page two.")])) =
  Return "page one. page one. page two.".
Proof. reflexivity. Qed.

Lemma extract_raises_iff_aux (exn : Type) (pdf_file : pdf exn) (e : exn) :
  extract_text_from_pdf pdf_file = Raise e <->
  failure (plumber pdf_file) <> None /\ failure (pypdf2 pdf_file) = Some e.
Proof.
  unfold extract_text_from_pdf.
  pose proof (read_document_failure (plumber pdf_file) "") as H1.
  destruct (read_document "" (plumber pdf_file)) as [text [e1|]];
    cbn [snd] in H1; rewrite <- H1.
  - pose proof (read_document_failure (pypdf2 pdf_file) text) as H2.
    destruct (read_document text (pypdf2 pdf_file)) as [text' [e2|]];
      cbn [snd] in H2; rewrite <- H2.
    + split; [intros [= ->]; split; [discriminate | reflexivity]|].
      intros [_ [= ->]]. reflexivity.
    + split; [discriminate | intros [_ H]; discriminate H].
  - split; [discriminate | intros [H _]; congruence].
Qed.

(** X15.  [extract_text_from_pdf] raises exactly when both libraries fail,
    and the exception is the one of the second library; a failure of the
    first library alone is never seen by the caller. *)
Theorem extract_raises_iff (exn : Type) (pdf_file : pdf exn) (e : exn) :
  extract_text_from_pdf pdf_file = Raise e <->
  failure (plumber pdf_file) <> None /\ failure (pypdf2 pdf_file) = Some e.
Proof. apply extract_raises_iff_aux. Qed.

(* ================================================================== *)
(** * The completion step with a credential                            *)
(* ================================================================== *)

(** X16.  The secrets mapping is looked up first and its value is used even
    when it is the empty text: an empty secret hides a key set in the
    environment, and the call ends with the configuration error and no
    request. *)
Theorem empty_secret_hides_environment
    (float exn : Type)
    (entries environ : string -> option string)
    (service : Groq.request float -> outcome exn (option Groq.response))
    (prompt model : string) (temperature : float)
    (tr : list (event float)) :
  entries "GROQ_API_KEY" = Some "" ->
  call_groq_api float exn (SecretsFile entries) environ service prompt model
                temperature tr =
  (Return None,
   (tr ++ [StError
     "Please set your GROQ_API_KEY in Streamlit secrets or environment variables."])%list).
Proof.
  intros Hs. unfold call_groq_api, get_groq_api_key, bind, lift.
  now rewrite Hs.
Qed.

Lemma empty_secret_hides_environment_witness :
  (fun _ : string => Some "") "GROQ_API_KEY" = Some "" /\
  call_groq_api nat unit (SecretsFile (fun _ => Some ""))
    (fun _ => Some "gsk_live")
    (fun _ => Return None) "prompt" "model" 7 [] =
  (Return None,
   [StError
     "Please set your GROQ_API_KEY in Streamlit secrets or environment variables."]).
Proof.
  split; [reflexivity|].
  exact (empty_secret_hides_environment nat unit (fun _ => Some "")
           (fun _ => Some "gsk_live") (fun _ => Return None)
           "prompt" "model" 7 [] eq_refl).
Defined.

(** The three ways a call can go: the key lookup raises; the credential is
    missing or empty; a request is sent. *)
Lemma call_groq_api_cases
    (float exn : Type)
    (secrets : secrets_store exn) (environ : string -> option string)
    (service : Groq.request float -> outcome exn (option Groq.response))
    (prompt model : string) (temperature : float)
    (tr : list (event float)) :
  call_groq_api float exn secrets environ service prompt model temperature tr =
  match get_groq_api_key exn secrets environ with
  | Raise e => (Raise e, tr)
  | Return key =>
      if truthy_opt key then
        (match service (Groq.Request key model prompt temperature 2048 false)
         with
         | Return response => Return (first_content response)
         | Raise e => Raise e
         end,
         (tr ++ [GroqCall
                   (Groq.Request key model prompt temperature 2048 false)])%list)
      else
        (Return None,
         (tr ++ [StError
           "Please set your GROQ_API_KEY in Streamlit secrets or environment variables."])%list)
  end.
Proof.
  unfold call_groq_api, bind, lift.
  destruct (get_groq_api_key exn secrets environ) as [key|e]; [|reflexivity].
  destruct (truthy_opt key); cbn [negb]; [|reflexivity].
  unfold create, ret. destruct (service _); reflexivity.
Qed.

Lemma first_content_trimmed (response : option Groq.response) (c : string) :
  first_content response = Some c ->
  Py.strip c = c /\
  exists r ch rest m raw,
    response = Some r /\ Groq.choices r = ch :: rest /\
    Groq.message ch = Some m /\ Groq.content m = Some raw /\
    raw <> "" /\ c = Py.strip raw.
Proof.
  unfold first_content.
  destruct response as [r|]; [|discriminate].
  destruct (Groq.choices r) as [|ch rest] eqn:Ec; [discriminate|].
  destruct (Groq.message ch) as [m|] eqn:Em; [|discriminate].
  destruct (Groq.content m) as [raw|] eqn:Er; [|discriminate].
  cbn [truthy_opt option_map].
  destruct (Py.truthy raw) eqn:Et; [|discriminate].
  intros [= <-]. split; [apply strip_idem|].
  exists r, ch, rest, m, raw. repeat split; try assumption.
  now apply truthy_true.
Qed.

(** X18.  A content returned by [call_groq_api] is the content of the first
    choice of the response, trimmed; that content was not empty before
    trimming, later choices are not read, and what is returned carries no
    leading or trailing whitespace. *)
Theorem returned_content_is_first_choice
    (float exn : Type)
    (secrets : secrets_store exn) (environ : string -> option string)
    (service : Groq.request float -> outcome exn (option Groq.response))
    (prompt model : string) (temperature : float)
    (tr tr' : list (event float)) (c : string) :
  call_groq_api float exn secrets environ service prompt model temperature tr
    = (Return (Some c), tr') ->
  Py.strip c = c /\
  exists req r ch rest m raw,
    service req = Return (Some r) /\ tr' = (tr ++ [GroqCall req])%list /\
    Groq.choices r = ch :: rest /\
    Groq.message ch = Some m /\ Groq.content m = Some raw /\
    raw <> "" /\ c = Py.strip raw.
Proof.
  rewrite call_groq_api_cases.
  destruct (get_groq_api_key exn secrets environ) as [key|e0]; [|discriminate].
  destruct (truthy_opt _); [|discriminate].
  destruct (service _) as [response|e] eqn:Es; [|discriminate].
  intros [= Hc <-].
  destruct (first_content_trimmed _ _ Hc)
    as (Hstrip & r & ch & rest & m & raw & -> & H1 & H2 & H3 & H4 & H5).
  split; [exact Hstrip|].
  eexists _, r, ch, rest, m, raw. repeat split; eassumption.
Qed.

Lemma returned_content_is_first_choice_witness :
  call_groq_api nat unit (SecretsFile (fun _ => Some "k")) (fun _ => None)
    (fun _ => Return (Some (Groq.Response
       [Groq.Choice (Some (Groq.Message (Some "  first  ")));
        Groq.Choice (Some (Groq.Message (Some "second")))])))
    "prompt" "model" 7 [] =
  (Return (Some "first"),
   [GroqCall (Groq.Request (Some "k") "model" "prompt" 7 2048 false)]) /\
  Py.strip "first" = "first".
Proof.
  assert (H : call_groq_api nat unit (SecretsFile (fun _ => Some "k")) (fun _ => None)
    (fun _ => Return (Some (Groq.Response
       [Groq.Choice (Some (Groq.Message (Some "  first  ")));
        Groq.Choice (Some (Groq.Message (Some "second")))])))
    "prompt" "model" 7 [] =
  (Return (Some "first"),
   [GroqCall (Groq.Request (Some "k") "model" "prompt" 7 2048 false)]))
    by reflexivity.
  split; [exact H|].
  exact (proj1 (returned_content_is_first_choice _ _ _ _ _ _ _ _ _ _ _ H)).
Defined.

(* ================================================================== *)
(** * The form handler                                                 *)
(* ================================================================== *)

Section HandlerFacts.

Variable float : Type.
Variable exn : Type.
Variable str_of_exn : exn -> string.
Variable secrets : secrets_store exn.
Variable environ : string -> option string.
Variable service : Groq.request float -> outcome exn (option Groq.response).
Variable instructions : string.
Variable default_temperature : float.

Local Abbreviation run :=
  (on_submit float exn str_of_exn secrets environ service instructions
             default_temperature).
Local Abbreviation lookup := (get_groq_api_key exn secrets environ).
Local Abbreviation request_of k prompt :=
  (Groq.Request k default_model prompt default_temperature 2048 false).
Local Abbreviation prompt_of text n := (build_prompt instructions text n).
Local Abbreviation config_error :=
  "Please set your GROQ_API_KEY in Streamlit secrets or environment variables.".

Lemma guarded_call_cases (prompt : string) :
  guarded_call float exn str_of_exn secrets environ service
               default_temperature prompt =
  match lookup with
  | Raise e => (None, [Error ("Groq API error: " ++ str_of_exn e)])
  | Return k =>
      if truthy_opt k then
        match service (request_of k prompt) with
        | Return response =>
            (first_content response, [Request (request_of k prompt)])
        | Raise e =>
            (None, [Request (request_of k prompt);
                    Error ("Groq API error: " ++ str_of_exn e)])
        end
      else (None, [Error config_error])
  end.
Proof.
  unfold guarded_call, call_default. rewrite call_groq_api_cases.
  destruct lookup as [k|e]; [|reflexivity].
  destruct (truthy_opt k); [|reflexivity].
  destruct (service _); reflexivity.
Qed.

Lemma requests_app (a b : list (page_event float)) :
  requests (a ++ b) = (requests a ++ requests b)%list.
Proof.
  induction a as [|e a IH]; [reflexivity|].
  destruct e; cbn [app requests]; rewrite IH; reflexivity.
Qed.

Lemma requests_expanders (l : list (nat * MCQ.t)) :
  requests (map (expander_of float) l) = [].
Proof.
  induction l as [|[i q] l IH]; [reflexivity|]. exact IH.
Qed.

Lemma requests_show_output (output : string) :
  requests (show_output float output) = [].
Proof.
  unfold show_output. cbn [requests].
  destruct (nonempty (parse_mcqs output)); [|reflexivity].
  cbn [requests]. rewrite requests_app, requests_expanders. reflexivity.
Qed.

Lemma requests_generate (text : string) (n : Z) :
  requests (generate float exn str_of_exn secrets environ service
                     instructions default_temperature text n) =
  match lookup with
  | Return k =>
      if truthy_opt k then [request_of k (prompt_of text n)] else []
  | Raise _ => []
  end.
Proof.
  unfold generate. rewrite guarded_call_cases.
  destruct lookup as [k|e]; [|reflexivity].
  destruct (truthy_opt k).
  - destruct (service _) as [response|e]; cbn [app requests];
      [destruct (truthy_opt (first_content response))|];
      rewrite ?requests_show_output; reflexivity.
  - reflexivity.
Qed.

Lemma enough_text (text : string) :
  negb (Py.truthy text) || (String.length text <? 100)%nat = false <->
  100 <= String.length text.
Proof.
  destruct (Nat.ltb_spec (String.length text) 100) as [Hlt|Hge].
  - rewrite orb_true_r. split; [discriminate | lia].
  - rewrite orb_false_r. destruct text; [simpl in Hge; lia|].
    split; [intros _; exact Hge | reflexivity].
Qed.

(** The run on a submitted file whose normalised text is long enough. *)
Lemma run_generate (f : pdf exn) (text : string) (n : Z) :
  extract_text_from_pdf f = Return text ->
  100 <= String.length (normalize text) ->
  run (Some f) n true =
  (Return tt,
   Spinner "Extracting text from PDF..." ::
   generate float exn str_of_exn secrets environ service instructions
            default_temperature (normalize text) n).
Proof.
  intros He Hlen. unfold on_submit. rewrite He.
  apply enough_text in Hlen. unfold normalize in *. now rewrite Hlen.
Qed.

(** X19.  A run of the handler sends at most one request, and it sends one
    only when a file was submitted, its text could be extracted, the
    normalised text has at least 100 characters and a credential is set; the
    request then carries the prompt built from the normalised text, which
    is at most 15000 characters long, and the slider value. *)
Theorem requests_of_a_run (pdf_file : option (pdf exn)) (n : Z)
    (submitted : bool) :
  List.length (requests (snd (run pdf_file n submitted))) <= 1 /\
  forall req,
    In req (requests (snd (run pdf_file n submitted))) ->
    exists f text k,
      pdf_file = Some f /\ submitted = true /\
      extract_text_from_pdf f = Return text /\
      100 <= String.length (normalize text) /\
      (Z.of_nat (String.length (normalize text)) <= MAX_TOKENS)%Z /\
      lookup = Return k /\ truthy_opt k = true /\
      req = request_of k (prompt_of (normalize text) n).
Proof.
  destruct pdf_file as [f|]; [|split; [simpl; lia | intros req []]].
  destruct submitted; [|split; [simpl; lia | intros req []]].
  destruct (extract_text_from_pdf f) as [text|e] eqn:He.
  - destruct (Nat.lt_ge_cases (String.length (normalize text)) 100)
      as [Hlt|Hge].
    + unfold on_submit. rewrite He.
      destruct (enough_text (normalize text)) as [H1 _].
      unfold normalize in *.
      destruct (negb _ || _); [|specialize (H1 eq_refl); lia].
      split; [simpl; lia | intros req []].
    + rewrite (run_generate f text n He Hge). cbn [snd requests].
      rewrite requests_generate.
      destruct lookup as [k|e] eqn:El; [|split; [simpl; lia|intros req []]].
      destruct (truthy_opt k) eqn:Ek; [|split; [simpl; lia|intros req []]].
      split; [simpl; lia|]. intros req [<-|[]].
      exists f, text, k. repeat split; try assumption.
      apply normalize_length.
  - unfold on_submit. rewrite He. split; [simpl; lia | intros req []].
Qed.

(** X20.  The handler raises exactly when the extraction raises, that is,
    when a file was submitted and both PDF libraries fail on it; an
    exception of the completion service never leaves the handler. *)
Theorem run_raises_iff (pdf_file : option (pdf exn)) (n : Z)
    (submitted : bool) (e : exn) :
  fst (run pdf_file n submitted) = Raise e <->
  exists f, pdf_file = Some f /\ submitted = true /\
            failure (plumber f) <> None /\ failure (pypdf2 f) = Some e.
Proof.
  unfold on_submit. split.
  - destruct pdf_file as [f|]; [|discriminate].
    destruct submitted; [|discriminate].
    destruct (extract_text_from_pdf f) as [text|e'] eqn:He; [discriminate|].
    cbn [fst]. intros [= ->]. exists f.
    apply extract_raises_iff_aux in He. tauto.
  - intros (f & -> & -> & H1 & H2).
    rewrite (proj2 (extract_raises_iff_aux exn f e) (conj H1 H2)).
    reflexivity.
Qed.


(** X22.  When the service raises, the exception is caught: the run ends
    normally, after the one request, with an error box that shows the
    exception and then the general failure message. *)
Theorem run_service_raises (f : pdf exn) (text : string) (n : Z) (e : exn)
    (k : option string) :
  extract_text_from_pdf f = Return text ->
  100 <= String.length (normalize text) ->
  lookup = Return k -> truthy_opt k = true ->
  service (request_of k (prompt_of (normalize text) n)) = Raise e ->
  run (Some f) n true =
  (Return tt,
   [ Spinner "Extracting text from PDF...";
     Success "PDF text extracted successfully!";
     Spinner "Generating MCQs using Groq API...";
     Request (request_of k (prompt_of (normalize text) n));
     Error ("Groq API error: " ++ str_of_exn e);
     Error "Failed to generate MCQs. Please try again." ]).
Proof.
  intros He Hlen Hl Hk Hs. rewrite (run_generate f text n He Hlen).
  unfold generate. rewrite guarded_call_cases, Hl, Hk, Hs. reflexivity.
Qed.

(** X23.  A response without usable content (no response object, no
    choice, no message, no content, or a content that is empty or only
    whitespace) ends the run with the general failure message. *)
Theorem run_unusable_completion (f : pdf exn) (text : string) (n : Z)
    (response : option Groq.response)
    (k : option string) :
  extract_text_from_pdf f = Return text ->
  100 <= String.length (normalize text) ->
  lookup = Return k -> truthy_opt k = true ->
  service (request_of k (prompt_of (normalize text) n)) = Return response ->
  first_content response = None \/ first_content response = Some "" ->
  run (Some f) n true =
  (Return tt,
   [ Spinner "Extracting text from PDF...";
     Success "PDF text extracted successfully!";
     Spinner "Generating MCQs using Groq API...";
     Request (request_of k (prompt_of (normalize text) n));
     Error "Failed to generate MCQs. Please try again." ]).
Proof.
  intros He Hlen Hl Hk Hs Hc. rewrite (run_generate f text n He Hlen).
  unfold generate. rewrite guarded_call_cases, Hl, Hk, Hs.
  destruct Hc as [-> | ->]; reflexivity.
Qed.

(** X24.  When the completion has content but no record can be parsed from
    it, the page still shows the success box, then the warning and the raw
    content; there is no expander and nothing to download. *)
Theorem run_no_record (f : pdf exn) (text : string) (n : Z)
    (response : option Groq.response) (output : string)
    (k : option string) :
  extract_text_from_pdf f = Return text ->
  100 <= String.length (normalize text) ->
  lookup = Return k -> truthy_opt k = true ->
  service (request_of k (prompt_of (normalize text) n)) = Return response ->
  first_content response = Some output -> output <> "" ->
  parse_mcqs output = [] ->
  run (Some f) n true =
  (Return tt,
   [ Spinner "Extracting text from PDF...";
     Success "PDF text extracted successfully!";
     Spinner "Generating MCQs using Groq API...";
     Request (request_of k (prompt_of (normalize text) n));
     Success "MCQs generated!";
     Warning "Could not parse MCQs. Showing raw output:";
     Code output ]).
Proof.
  intros He Hlen Hl Hk Hs Hc Hne Hp. rewrite (run_generate f text n He Hlen).
  unfold generate. rewrite guarded_call_cases, Hl, Hk, Hs, Hc.
  apply truthy_true in Hne. cbn [truthy_opt or_empty]. rewrite Hne.
  unfold show_output. rewrite Hp. reflexivity.
Qed.

(** X25.  When records are parsed, the page shows their number, one
    expander per record in order, numbered from 1, and the two download
    buttons, both carrying the export of exactly these records. *)
Theorem run_with_records (f : pdf exn) (text : string) (n : Z)
    (response : option Groq.response) (output : string)
    (k : option string) :
  extract_text_from_pdf f = Return text ->
  100 <= String.length (normalize text) ->
  lookup = Return k -> truthy_opt k = true ->
  service (request_of k (prompt_of (normalize text) n)) = Return response ->
  first_content response = Some output ->
  parse_mcqs output <> [] ->
  run (Some f) n true =
  (Return tt,
   [ Spinner "Extracting text from PDF...";
     Success "PDF text extracted successfully!";
     Spinner "Generating MCQs using Groq API...";
     Request (request_of k (prompt_of (normalize text) n));
     Success "MCQs generated!";
     Markdown ("### " ++ Py.str_of_nat (List.length (parse_mcqs output))
                      ++ " MCQs Generated:") ]
   ++ map (expander_of float) (enumerate 1 (parse_mcqs output))
   ++ [ DownloadButton
          (Download "Download MCQs (Markdown)"
                    (render_all (parse_mcqs output))
                    "mcqs.md" "text/markdown" "download_md");
        DownloadButton
          (Download "Download MCQs (Text)"
                    (render_all (parse_mcqs output))
                    "mcqs.txt" "text/plain" "download_txt") ])%list.
Proof.
  intros He Hlen Hl Hk Hs Hc Hp. rewrite (run_generate f text n He Hlen).
  unfold generate. rewrite guarded_call_cases, Hl, Hk, Hs, Hc.
  assert (Hne : output <> "").
  { intros ->. apply Hp. reflexivity. }
  apply truthy_true in Hne. cbn [truthy_opt or_empty]. rewrite Hne.
  unfold show_output. apply nonempty_true in Hp. rewrite Hp.
  unfold download_buttons, mcqs_to_md, render_all. rewrite fold_md_iter.
  reflexivity.
Qed.

Lemma all_space_concat (ts : list (option string)) :
  (forall t, In t ts -> all_space (or_empty t) = true) ->
  all_space (String.concat "" (map or_empty ts)) = true.
Proof.
  induction ts as [|t ts IH]; [reflexivity|]. intros H.
  cbn [map]. rewrite concat_empty_cons.
  assert (Happ : forall a b, all_space a = true -> all_space b = true ->
                             all_space (a ++ b) = true).
  { intros a b Ha Hb. induction a as [|c a IHa]; [exact Hb|].
    cbn [append all_space] in *. apply andb_prop in Ha as [Hc Ha].
    now rewrite Hc, IHa. }
  apply Happ; [apply H; now left | apply IH; intros t' Ht'; apply H; now right].
Qed.

(** X26.  A submitted file all of whose pages are without text or hold only
    whitespace is reported as insufficient text, and nothing else happens:
    no request is sent, whatever the credential. *)
Theorem run_blank_pdf (ts : list (option string)) (second : document exn)
    (n : Z) :
  (forall t, In t ts -> all_space (or_empty t) = true) ->
  run (Some (Pdf (Pages (map PageText ts)) second)) n true =
  (Return tt,
   [ Spinner "Extracting text from PDF...";
     Error "Failed to extract sufficient text from the PDF." ]).
Proof.
  intros H. unfold on_submit.
  rewrite (proj1 (extract_primary_aux exn ts second)).
  apply all_space_concat, clean_text_empty_iff in H. rewrite H.
  reflexivity.
Qed.

End HandlerFacts.

(** ** Runs on a small file *)

Lemma demo_extract : extract_text_from_pdf demo_pdf = Return demo_text.
Proof. vm_compute. reflexivity. Qed.

Lemma demo_enough : 100 <= String.length (normalize demo_text).
Proof. apply Nat.leb_le. vm_compute. reflexivity. Qed.


Lemma run_service_raises_witness :
  on_submit nat unit (fun _ => "timeout") (SecretsFile (fun _ => None))
    (fun _ => Some "k") (fun _ => Raise tt) "Instructions. Text: " 7
    (Some demo_pdf) 5 true =
  (Return tt,
   [ Spinner "Extracting text from PDF...";
     Success "PDF text extracted successfully!";
     Spinner "Generating MCQs using Groq API...";
     Request demo_request;
     Error "Groq API error: timeout";
     Error "Failed to generate MCQs. Please try again." ]).
Proof.
  exact (run_service_raises nat unit (fun _ => "timeout")
           (SecretsFile (fun _ => None)) (fun _ => Some "k")
           (fun _ => Raise tt)
           "Instructions. Text: " 7 demo_pdf demo_text 5 tt (Some "k")
           demo_extract demo_enough eq_refl eq_refl eq_refl).
Defined.

Lemma run_unusable_completion_witness :
  first_content (demo_response "   ") = Some "" /\
  on_submit nat unit (fun _ => "timeout") (SecretsFile (fun _ => None))
    (fun _ => Some "k")
    (fun _ => Return (demo_response "   ")) "Instructions. Text: " 7
    (Some demo_pdf) 5 true =
  (Return tt,
   [ Spinner "Extracting text from PDF...";
     Success "PDF text extracted successfully!";
     Spinner "Generating MCQs using Groq API...";
     Request demo_request;
     Error "Failed to generate MCQs. Please try again." ]).
Proof.
  split; [reflexivity|].
  exact (run_unusable_completion nat unit (fun _ => "timeout")
           (SecretsFile (fun _ => None)) (fun _ => Some "k")
           (fun _ => Return (demo_response "   "))
           "Instructions. Text: " 7 demo_pdf demo_text 5
           (demo_response "   ") (Some "k")
           demo_extract demo_enough eq_refl eq_refl eq_refl
           (or_intror eq_refl)).
Defined.

Lemma run_no_record_witness :
  parse_mcqs "Sorry, I cannot help with that." = [] /\
  on_submit nat unit (fun _ => "timeout") (SecretsFile (fun _ => None))
    (fun _ => Some "k")
    (fun _ => Return (demo_response " Sorry, I cannot help with that. "))
    "Instructions. Text: " 7 (Some demo_pdf) 5 true =
  (Return tt,
   [ Spinner "Extracting text from PDF...";
     Success "PDF text extracted successfully!";
     Spinner "Generating MCQs using Groq API...";
     Request demo_request;
     Success "MCQs generated!";
     Warning "Could not parse MCQs. Showing raw output:";
     Code "Sorry, I cannot help with that." ]).
Proof.
  split; [reflexivity|].
  assert (Hne : "Sorry, I cannot help with that." <> "") by discriminate.
  exact (run_no_record nat unit (fun _ => "timeout")
           (SecretsFile (fun _ => None)) (fun _ => Some "k")
           (fun _ => Return (demo_response " Sorry, I cannot help with that. "))
           "Instructions. Text: " 7 demo_pdf demo_text 5
           (demo_response " Sorry, I cannot help with that. ")
           "Sorry, I cannot help with that." (Some "k")
           demo_extract demo_enough eq_refl eq_refl eq_refl eq_refl Hne
           eq_refl).
Defined.

Lemma run_with_records_witness :
  parse_mcqs example_raw <> [] /\
  snd (on_submit nat unit (fun _ => "timeout") (SecretsFile (fun _ => None))
         (fun _ => Some "k") (fun _ => Return (demo_response example_raw))
         "Instructions. Text: " 7 (Some demo_pdf) 5 true) =
  [ Spinner "Extracting text from PDF...";
    Success "PDF text extracted successfully!";
    Spinner "Generating MCQs using Groq API...";
    Request demo_request;
    Success "MCQs generated!";
    Markdown "### 1 MCQs Generated:";
    Expander "Question 1"
      [ "**Scenario:** A tenant is evicted without notice.";
        "A) Valid
B) Invalid
C) Unclear
D) None";
        "**Correct Answer:** B";
        "**Explanation:** Due process requires notice." ];
    DownloadButton
      (Download "Download MCQs (Markdown)"
                (render_all (parse_mcqs example_raw))
                "mcqs.md" "text/markdown" "download_md");
    DownloadButton
      (Download "Download MCQs (Text)"
                (render_all (parse_mcqs example_raw))
                "mcqs.txt" "text/plain" "download_txt") ].
Proof.
  assert (Hp : parse_mcqs example_raw <> []) by (vm_compute; discriminate).
  split; [exact Hp|].
  rewrite (run_with_records nat unit (fun _ => "timeout")
           (SecretsFile (fun _ => None)) (fun _ => Some "k")
           (fun _ => Return (demo_response example_raw))
           "Instructions. Text: " 7 demo_pdf demo_text 5
           (demo_response example_raw) example_raw (Some "k")
           demo_extract demo_enough eq_refl eq_refl eq_refl eq_refl Hp).
  reflexivity.
Defined.

Lemma run_blank_pdf_witness :
  (forall t, In t [None; Some "  "; Some (String Py.nl "")] ->
             all_space (or_empty t) = true) /\
  on_submit nat unit (fun _ => "timeout") (SecretsFile (fun _ => None))
    (fun _ => Some "k")
    (fun _ => Raise tt) "Instructions. Text: " 7
    (Some (Pdf (Pages (map PageText [None; Some "  "; Some (String Py.nl "")]))
               (OpenRaises tt))) 5 true =
  (Return tt,
   [ Spinner "Extracting text from PDF...";
     Error "Failed to extract sufficient text from the PDF." ]).
Proof.
  assert (H : forall t, In t [None; Some "  "; Some (String Py.nl "")] ->
                        all_space (or_empty t) = true).
  { intros t [<-|[<-|[<-|[]]]]; reflexivity. }
  split; [exact H|].
  exact (run_blank_pdf nat unit (fun _ => "timeout")
           (SecretsFile (fun _ => None))
           (fun _ => Some "k") (fun _ => Raise tt) "Instructions. Text: " 7
           _ (OpenRaises tt) 5 H).
Defined.

(* ================================================================== *)
(** * The export of a longer list                                      *)
(* ================================================================== *)

Lemma enumerate_app {A} (xs ys : list A) (start : nat) :
  enumerate start (xs ++ ys) =
  (enumerate start xs ++ enumerate (start + List.length xs) ys)%list.
Proof.
  revert start; induction xs as [|x xs IH]; intros start.
  - cbn. now rewrite Nat.add_0_r.
  - cbn [app enumerate List.length]. rewrite IH.
    now rewrite Nat.add_succ_r.
Qed.

(** X27.  The export of two lists of records one after the other is the
    export of the first followed by the renderings of the second, whose
    numbering goes on where the first stopped; so adding records at the end
    never changes the text already exported. *)
Theorem mcqs_to_md_app (xs ys : list MCQ.t) :
  mcqs_to_md (xs ++ ys) =
  mcqs_to_md xs ++
  String.concat ""
    (map (fun iq => render_record (fst iq) (snd iq))
         (enumerate (S (List.length xs)) ys)).
Proof.
  unfold mcqs_to_md. rewrite enumerate_app, fold_left_app.
  now rewrite fold_md_iter.
Qed.
